(** * ai-vibes-vid-gen: the video pipeline, embedded and verified

    A shallow embedding of the orchestration core of the repository:
    - [MediaService]: the subtitle timestamp formatter [formatSrtTime],
      the audio and clip stages with their fallbacks, the subtitle file;
    - [EditorService]: duration reconciliation (trim or loop) and the
      subtitle-path escaping of the mux step;
    - [ScriptService]: the fallback template, [validateScriptData] and
      [generateScript];
    - [PublisherService.uploadToSocial];
    - [VideoGenerationProcessor.handleVideoGeneration].

    Conventions of the embedding.
    - A JavaScript number is a rational [Q]; [Math.floor], [Math.ceil]
      and [%] are exact.  The rounding of IEEE doubles, [NaN] and the
      infinities are outside the model.
    - A JavaScript string is a [string]; a template literal is a
      concatenation with [+:+].
    - A value of type [any] is a [jsval]; a missing property reads as
      [None] (JavaScript's undefined).
    - Code that talks to the outside world (subprocesses, HTTP, the file
      system, the job queue) lives in the monad [M].  Every external call
      is recorded in a trace and answered by the environment [Env], which
      may answer differently at each point in time and may answer with an
      exception.  [try_catch] is try/catch, [attempt] an error-first
      callback. *)

From Stdlib Require Import ZArith QArith Qround Lqa String Ascii List Sorted Lia.
From Stdlib Require Import DecimalString DecimalFacts DecimalPos.
From stdpp Require Import base gmap strings list.

Local Open Scope Z_scope.

(** ** JavaScript numbers and strings *)

Module Js.

(** Truncation toward zero, the rounding of the JavaScript remainder. *)
Definition Qtrunc (x : Q) : Z :=
  if Qle_bool 0 x then Qfloor x else Qceiling x.

(** [a % b]: the result takes the sign of the dividend. *)
Definition rem (a b : Q) : Q :=
  (a - b * inject_Z (Qtrunc (a / b)))%Q.

(** [String(n)] for an integral number. *)
Definition String_of_Z (n : Z) : string :=
  NilZero.string_of_int (Z.to_int n).

(** [s.padStart(width, c)] with a one-character filler: pads on the left
    up to [width], and never truncates. *)
Definition padStart (width : nat) (c : ascii) (s : string) : string :=
  string_of_list_ascii (replicate (width - String.length s) c) +:+ s.

(** [s.substring(0, n)]. *)
Definition substring0 (n : nat) (s : string) : string :=
  String.substring 0 n s.

(** [s.replace(/c/g, by)]: every occurrence of the character [c] is
    replaced by the string [by_]; the scan is a single left-to-right pass,
    so the replacement text is never rescanned. *)
Fixpoint replace_char (c : ascii) (by_ : string) (s : string) : string :=
  match s with
  | EmptyString => EmptyString
  | String a rest =>
      if Ascii.eqb a c then by_ +:+ replace_char c by_ rest
      else String a (replace_char c by_ rest)
  end.

(** [s.replace(/pat/g, by)] for a literal, non-empty pattern.  [skip]
    counts the characters of a match that are still to be dropped. *)
Fixpoint replace_from (pat by_ : string) (skip : nat) (s : string) : string :=
  match s with
  | EmptyString => EmptyString
  | String a rest =>
      match skip with
      | S k => replace_from pat by_ k rest
      | O =>
          if String.prefix pat s
          then by_ +:+ replace_from pat by_ (String.length pat - 1) rest
          else String a (replace_from pat by_ O rest)
      end
  end.

Definition replace_all (pat by_ s : string) : string :=
  replace_from pat by_ O s.

(** [s.trim()], on the ASCII white space characters. *)
Fixpoint trimStart (s : string) : string :=
  match s with
  | EmptyString => EmptyString
  | String a rest => if Ascii.is_space a then trimStart rest else s
  end.

Definition reverse_string (s : string) : string :=
  string_of_list_ascii (rev (list_ascii_of_string s)).

Definition trim (s : string) : string :=
  reverse_string (trimStart (reverse_string (trimStart s))).

(** [s.split(c)] on a one-character separator. *)
Fixpoint split (c : ascii) (s : string) : list string :=
  match s with
  | EmptyString => [EmptyString]
  | String a rest =>
      if Ascii.eqb a c then EmptyString :: split c rest
      else match split c rest with
           | h :: tl => String a h :: tl
           | [] => [String a EmptyString]
           end
  end.

(** Truthiness: the empty string and undefined are falsy. *)
Definition truthy_string (s : string) : bool :=
  match s with EmptyString => false | _ => true end.

Definition truthy_ostring (s : option string) : bool :=
  match s with Some s => truthy_string s | None => false end.

Definition truthy_obool (b : option bool) : bool :=
  match b with Some b => b | None => false end.

(** [a || b] where [a] may be undefined. *)
Definition or_string (a : option string) (b : string) : string :=
  match a with
  | Some s => if truthy_string s then s else b
  | None => b
  end.

(** Characters that cannot be written inside a string literal. *)
Definition backslash : ascii := ascii_of_nat 92.
Definition dquote : ascii := ascii_of_nat 34.
Definition newline : string := String (ascii_of_nat 10) EmptyString.

End Js.

(** ** Values of type [any]

    What [JSON.parse] returns, closed under the property assignments of
    [validateScriptData]: an array may carry named properties next to its
    elements. *)

#[local] Unset Elimination Schemes.
Inductive jsval : Type :=
| JNull
| JBool (b : bool)
| JNum (q : Q)
| JStr (s : string)
| JArray (elems : list jsval) (props : gmap string jsval)
| JObject (props : gmap string jsval).
#[local] Set Elimination Schemes.

(** An exception, identified by its message. *)
Definition Error : Type := string.

Global Instance sum_Error_ret : MRet (sum Error) := fun A a => inr a.
Global Instance sum_Error_bind : MBind (sum Error) := fun A B f m =>
  match m with inl e => inl e | inr a => f a end.

Module Json.

(** [v.k], for a property name that is neither an index nor [length]. *)
Definition get (v : jsval) (k : string) : Error + option jsval :=
  match v with
  | JNull => inl "TypeError: Cannot read properties of null"
  | JBool _ | JNum _ | JStr _ => inr None
  | JArray _ props | JObject props => inr (props !! k)
  end.

(** [v.k = x] in strict mode: assigning through a primitive throws. *)
Definition set (v : jsval) (k : string) (x : jsval) : Error + jsval :=
  match v with
  | JNull => inl "TypeError: Cannot set properties of null"
  | JBool _ | JNum _ | JStr _ => inl "TypeError: Cannot create property"
  | JArray elems props => inr (JArray elems (<[k := x]> props))
  | JObject props => inr (JObject (<[k := x]> props))
  end.

Definition truthy (v : option jsval) : bool :=
  match v with
  | None | Some JNull => false
  | Some (JBool b) => b
  | Some (JNum q) => negb (Qeq_bool q 0)
  | Some (JStr s) => Js.truthy_string s
  | Some (JArray _ _) | Some (JObject _) => true
  end.

(** [Array.isArray(v)]. *)
Definition isArray (v : option jsval) : bool :=
  match v with Some (JArray _ _) => true | _ => false end.

(** [v.length] of an array. *)
Definition array_length (v : option jsval) : nat :=
  match v with Some (JArray elems _) => length elems | _ => O end.

(** [v.substring(0, n)]: only a string has the method. *)
Definition substring0 (n : nat) (v : option jsval) : Error + string :=
  match v with
  | Some (JStr s) => inr (Js.substring0 n s)
  | _ => inl "TypeError: data.script.substring is not a function"
  end.

Definition array (elems : list jsval) : jsval := JArray elems ∅.

Definition is_nonempty_string (v : option jsval) : bool :=
  match v with Some (JStr s) => Js.truthy_string s | _ => false end.

Definition is_nonempty_array (v : option jsval) : bool :=
  match v with Some (JArray (_ :: _) _) => true | _ => false end.

Definition is_object (v : jsval) : bool :=
  match v with JArray _ _ | JObject _ => true | _ => false end.

(** Reading a property of a value that is known to be an object. *)
Definition prop (v : jsval) (k : string) : option jsval :=
  match v with
  | JArray _ props | JObject props => props !! k
  | _ => None
  end.

End Json.

(** ** The data model (common/interfaces/video-generation.interface.ts) *)

Record VisualPrompt := {
  vp_index : Z;
  vp_prompt : string;
  vp_duration : Q }.

Record TimestampSegment := {
  ts_start : Q;
  ts_end : Q;
  ts_text : string }.

Record ScriptData := {
  script : string;
  visual_prompts : list VisualPrompt;
  timestamps : list TimestampSegment }.

Record MediaFiles := {
  audioPath : string;
  videoPaths : list string;
  subtitlePath : string }.

(** A typed object seen as a value of type [any]. *)
Definition VisualPrompt_to_js (p : VisualPrompt) : jsval :=
  JObject (<["index" := JNum (inject_Z (vp_index p))]>
           (<["prompt" := JStr (vp_prompt p)]>
            (<["duration" := JNum (vp_duration p)]> ∅))).

Definition TimestampSegment_to_js (s : TimestampSegment) : jsval :=
  JObject (<["start" := JNum (ts_start s)]>
           (<["end" := JNum (ts_end s)]>
            (<["text" := JStr (ts_text s)]> ∅))).

Definition ScriptData_to_js (d : ScriptData) : jsval :=
  JObject (<["script" := JStr (script d)]>
           (<["visual_prompts" := Json.array (map VisualPrompt_to_js (visual_prompts d))]>
            (<["timestamps" := Json.array (map TimestampSegment_to_js (timestamps d))]> ∅))).

(** ** MediaService.formatSrtTime *)

Definition formatSrtTime (seconds : Q) : string :=
  let hours := Qfloor (seconds / 3600) in
  let minutes := Qfloor (Js.rem seconds 3600 / 60) in
  let secs := Qfloor (Js.rem seconds 60) in
  let millis := Qfloor (Js.rem seconds 1 * 1000) in
  Js.padStart 2 "0" (Js.String_of_Z hours) +:+ ":" +:+
  Js.padStart 2 "0" (Js.String_of_Z minutes) +:+ ":" +:+
  Js.padStart 2 "0" (Js.String_of_Z secs) +:+ "," +:+
  Js.padStart 3 "0" (Js.String_of_Z millis).

(** The pattern [\d{2}:\d{2}:\d{2},\d{3}], matched against the whole
    string: two digits, colon, two digits, colon, two digits, comma,
    three digits, and nothing else. *)
Definition is_digit (c : ascii) : bool :=
  (48 <=? nat_of_ascii c)%nat && (nat_of_ascii c <=? 57)%nat.

Definition matches_srt_pattern (s : string) : bool :=
  match list_ascii_of_string s with
  | [h1; h2; c1; m1; m2; c2; s1; s2; c3; x1; x2; x3] =>
      is_digit h1 && is_digit h2 && Ascii.eqb c1 ":" &&
      is_digit m1 && is_digit m2 && Ascii.eqb c2 ":" &&
      is_digit s1 && is_digit s2 && Ascii.eqb c3 "," &&
      is_digit x1 && is_digit x2 && is_digit x3
  | _ => false
  end.





(** ** EditorService.addAudioAndSubtitles: the subtitle path in the filter

    [subtitlePath.replace(/\\/g, '/').replace(/:/g, '\\:')]. *)

Definition escapeSubtitlePath (subtitlePath : string) : string :=
  Js.replace_char ":" (String Js.backslash ":")
    (Js.replace_char Js.backslash "/" subtitlePath).

(** The [-vf] output option of the mux command. *)
Definition subtitlesFilter (subtitlePath : string) : string :=
  "-vf subtitles='" +:+ escapeSubtitlePath subtitlePath +:+ "'".



Fixpoint occurs (c : ascii) (s : string) : bool :=
  match s with
  | EmptyString => false
  | String a rest => Ascii.eqb a c || occurs c rest
  end.

(** ** ScriptService: fallback template and validation *)

Definition createFallbackScript (prompt : string) : ScriptData := {|
  script := "This is a video about " +:+ prompt +:+
            ". We'll explore this fascinating topic in detail.";
  visual_prompts := [
    {| vp_index := 0; vp_prompt := "Cinematic scene showing " +:+ prompt; vp_duration := 10 |};
    {| vp_index := 1; vp_prompt := "Close-up details of " +:+ prompt; vp_duration := 10 |};
    {| vp_index := 2; vp_prompt := "Wide angle view of " +:+ prompt; vp_duration := 10 |} ];
  timestamps := [
    {| ts_start := 0; ts_end := 10; ts_text := "This is a video about " +:+ prompt +:+ "." |};
    {| ts_start := 10; ts_end := 20; ts_text := "We'll explore this fascinating topic" |};
    {| ts_start := 20; ts_end := 30; ts_text := "in detail." |} ] |}.

(** Consecutive cues: each one starts where the previous one ended, and
    none is empty or reversed. *)
Fixpoint contiguous_from (t0 : Q) (cues : list TimestampSegment) : Prop :=
  match cues with
  | [] => True
  | c :: rest => (ts_start c == t0 /\ ts_start c < ts_end c)%Q /\ contiguous_from (ts_end c) rest
  end.

Definition validateScriptData (data : jsval) : Error + jsval :=
  script0 ← Json.get data "script";
  data ← (if negb (Json.truthy script0)
          then Json.set data "script" (JStr "Generated video content.")
          else mret data);
  prompts ← Json.get data "visual_prompts";
  data ← (if negb (Json.isArray prompts) || (Json.array_length prompts =? 0)%nat
          then Json.set data "visual_prompts"
                 (Json.array [VisualPrompt_to_js
                    {| vp_index := 0; vp_prompt := "Cinematic video scene"; vp_duration := 10 |}])
          else mret data);
  stamps ← Json.get data "timestamps";
  data ← (if negb (Json.isArray stamps) || (Json.array_length stamps =? 0)%nat
          then script1 ← Json.get data "script";
               text ← Json.substring0 100 script1;
               Json.set data "timestamps"
                 (Json.array [TimestampSegment_to_js
                    {| ts_start := 0; ts_end := 10; ts_text := text |}])
          else mret data);
  mret data.

(** ** The outside world *)

(** Shell commands run through [execAsync]. *)
Inductive Command :=
| EdgeTts (text outputPath : string)
| SilentAudio (seconds : Z) (outputPath : string)
| PlaceholderVideo (duration : Q) (text outputPath : string).

(** External calls.  The fields are the arguments that the code chooses;
    fixed options (codecs, URLs, headers) are left out. *)
Inductive Request :=
| GenerateContent (prompt : string)
| Exec (c : Command)
| HttpPostVideo (inputs : string)
| WriteFile (path content : string)
| ReadFile (path : string)
| SaveToDebug (filename : string)
| Ffprobe (path : string)
| FfmpegConcat (inputs : list string) (output : string)
| FfmpegTrim (input : string) (duration : Q) (output : string)
| FfmpegLoop (input : string) (stream_loop : Z) (duration : Q) (output : string)
| FfmpegMux (video audio : string) (vf : string) (output : string)
| YoutubeInsert (videoPath title description : string) (tags : list string).

(** What a call yields when it does not fail: the text of the generated
    content, the bytes of a file or of an HTTP body, the probed
    [format.duration], the id of the uploaded video. *)
Definition Response (r : Request) : Type :=
  match r with
  | GenerateContent _ | HttpPostVideo _ | ReadFile _ | YoutubeInsert _ _ _ _ => string
  | Ffprobe _ => Q
  | _ => unit
  end.

(** What the job's observers see: progress reports of the orchestrator,
    interleaved with the external calls of the stages. *)
Inductive Event :=
| Progress (n : Z)
| External (r : Request).

Record Env := {
  (** [ConfigService.get] *)
  config_get : string -> option string;
  (** Node's [path.join] *)
  path_join : string -> string -> string;
  (** [JSON.parse]; [None] is a SyntaxError *)
  JSON_parse : string -> option jsval;
  (** the outcome of an external call made at time [t] *)
  answer : nat -> forall r : Request, Error + Response r;
  (** the outcome of [job.progress(n)] at time [t] *)
  progress_answer : nat -> Z -> Error + unit }.

(** ** The monad of asynchronous code

    A computation reads the environment and the current time (the number
    of events so far) and yields the events it emitted and either an
    exception or a value. *)

Definition M (Ev : Type) (A : Type) : Type :=
  Env -> nat -> list Ev * (Error + A).

Definition run {Ev A} (m : M Ev A) (env : Env) (t : nat) : list Ev * (Error + A) :=
  m env t.

Global Instance M_ret {Ev} : MRet (M Ev) := fun A a _ _ => ([], inr a).

Global Instance M_bind {Ev} : MBind (M Ev) := fun A B f m env t =>
  match m env t with
  | (tr, inl e) => (tr, inl e)
  | (tr, inr a) =>
      let '(tr', r) := f a env (length tr + t)%nat in (tr ++ tr', r)
  end.

Definition throw {Ev A} (e : Error) : M Ev A := fun _ _ => ([], inl e).

Definition try_catch {Ev A} (m : M Ev A) (handler : Error -> M Ev A) : M Ev A :=
  fun env t =>
    match m env t with
    | (tr, inl e) =>
        let '(tr', r) := handler e env (length tr + t)%nat in (tr ++ tr', r)
    | (tr, inr a) => (tr, inr a)
    end.

(** An error-first callback: the failure is handed over as a value. *)
Definition attempt {Ev A} (m : M Ev A) : M Ev (Error + A) :=
  fun env t => let '(tr, r) := m env t in (tr, inr r).

Definition ask {Ev} : M Ev Env := fun env _ => ([], inr env).

(** Synchronous code that may throw. *)
Definition lift_sum {Ev A} (r : Error + A) : M Ev A := fun _ _ => ([], r).

Definition call (r : Request) : M Request (Response r) :=
  fun env t => ([r], answer env t r).

Definition progress (n : Z) : M Event unit :=
  fun env t => ([Progress n], progress_answer env t n).

(** A stage running inside the job. *)
Definition lift {A} (m : M Request A) : M Event A :=
  fun env t => let '(tr, r) := m env t in (map External tr, r).

Definition progress_of (tr : list Event) : list Z :=
  omap (fun e => match e with Progress n => Some n | External _ => None end) tr.

Definition requests_of (tr : list Event) : list Request :=
  omap (fun e => match e with Progress _ => None | External r => Some r end) tr.

(** What the code does to one character of the path. *)
Definition escapePathChar (a : ascii) : string :=
  if Ascii.eqb a Js.backslash then "/"
  else if Ascii.eqb a ":" then String Js.backslash ":"
  else String a EmptyString.


(** ** FilesystemService *)

Definition tempDir (env : Env) : string :=
  Js.or_string (config_get env "TEMP_DIR") "./temp".

Definition getTempPath (env : Env) (filename : string) : string :=
  path_join env (tempDir env) filename.

(** [saveToDebug] writes a file and may therefore throw. *)
Definition saveToDebug (filename : string) : M Request unit :=
  call (SaveToDebug filename).

(** ** ScriptService.generateScript *)

(** The client exists when the API key is configured. *)
Definition genAI (env : Env) : bool :=
  Js.truthy_ostring (config_get env "GEMINI_API_KEY").

Definition fence : string := "```".

(** Removal of the Markdown code fences around the reply. *)
Definition cleanJsonText (text : string) : string :=
  Js.trim
    (Js.replace_all fence EmptyString
       (Js.replace_all (fence +:+ Js.newline) EmptyString
          (Js.replace_all (fence +:+ "json" +:+ Js.newline) EmptyString text))).

Definition generateScript (prompt jobId : string) : M Request jsval :=
  env ← ask;
  if negb (genAI env) then
    let fallbackScript := ScriptData_to_js (createFallbackScript prompt) in
    saveToDebug (jobId +:+ "_script.json");;
    mret fallbackScript
  else
    try_catch
      (text ← call (GenerateContent prompt);
       let scriptData :=
         match JSON_parse env (cleanJsonText text) with
         | Some parsed => parsed
         | None => ScriptData_to_js (createFallbackScript prompt)
         end in
       scriptData ← lift_sum (validateScriptData scriptData);
       saveToDebug (jobId +:+ "_script.json");;
       mret scriptData)
      (fun _ => mret (ScriptData_to_js (createFallbackScript prompt))).

(** ** MediaService *)

Definition hfApiKey (env : Env) : bool :=
  Js.truthy_ostring (config_get env "HUGGINGFACE_API_KEY").

Definition audioFile (env : Env) (jobId : string) : string :=
  getTempPath env (jobId +:+ "_audio.mp3").

Definition createSilentAudio (jobId : string) : M Request string :=
  env ← ask;
  let outputPath := audioFile env jobId in
  try_catch
    (call (Exec (SilentAudio 30 outputPath));;
     mret outputPath)
    (fun error => throw error).

Definition generateAudio (script jobId : string) : M Request string :=
  env ← ask;
  let outputPath := audioFile env jobId in
  try_catch
    (call (Exec (EdgeTts
        (Js.replace_char Js.dquote (String Js.backslash (String Js.dquote EmptyString)) script)
        outputPath));;
     raw ← call (ReadFile outputPath);
     saveToDebug (jobId +:+ "_audio_raw.mp3");;
     mret outputPath)
    (fun _ => createSilentAudio jobId).

Definition clipFile (env : Env) (jobId : string) (prompt : VisualPrompt) : string :=
  getTempPath env (jobId +:+ "_clip_" +:+ Js.String_of_Z (vp_index prompt) +:+ ".mp4").

(** [prompt.duration || 5]: a zero duration is falsy. *)
Definition placeholderDuration (prompt : VisualPrompt) : Q :=
  if Qeq_bool (vp_duration prompt) 0 then 5 else vp_duration prompt.

Definition placeholderText (prompt : VisualPrompt) : string :=
  Js.replace_char "'" (String Js.backslash "'") (Js.substring0 50 (vp_prompt prompt)).

Definition createPlaceholderVideo (prompt : VisualPrompt) (jobId : string) : M Request string :=
  env ← ask;
  let outputPath := clipFile env jobId prompt in
  let duration := placeholderDuration prompt in
  try_catch
    (call (Exec (PlaceholderVideo duration (placeholderText prompt) outputPath));;
     mret outputPath)
    (fun error => throw error).

Definition generateSingleVideo (prompt : VisualPrompt) (jobId : string) : M Request string :=
  env ← ask;
  let outputPath := clipFile env jobId prompt in
  if negb (hfApiKey env) then createPlaceholderVideo prompt jobId
  else
    try_catch
      (data ← call (HttpPostVideo (vp_prompt prompt));
       call (WriteFile outputPath data);;
       saveToDebug (jobId +:+ "_clip_" +:+ Js.String_of_Z (vp_index prompt) +:+ ".mp4");;
       mret outputPath)
      (fun _ => createPlaceholderVideo prompt jobId).

(** The loop of [generateVideos]; [videoPaths] is the array pushed to. *)
Fixpoint generateVideos_from (videoPaths : list string)
    (visualPrompts : list VisualPrompt) (jobId : string) : M Request (list string) :=
  match visualPrompts with
  | [] => mret videoPaths
  | prompt :: rest =>
      videoPath ← try_catch (generateSingleVideo prompt jobId)
                            (fun _ => createPlaceholderVideo prompt jobId);
      generateVideos_from (videoPaths ++ [videoPath]) rest jobId
  end.

Definition generateVideos (visualPrompts : list VisualPrompt) (jobId : string)
  : M Request (list string) :=
  generateVideos_from [] visualPrompts jobId.

(** One block of the subtitle file: 1-based index line, time line, text
    line, blank line. *)
Definition srtBlock (index : nat) (segment : TimestampSegment) : string :=
  Js.String_of_Z (Z.of_nat index + 1) +:+ Js.newline +:+
  formatSrtTime (ts_start segment) +:+ " --> " +:+ formatSrtTime (ts_end segment) +:+ Js.newline +:+
  ts_text segment +:+ Js.newline +:+ Js.newline.

Fixpoint srtContent_from (index : nat) (segments : list TimestampSegment) : string :=
  match segments with
  | [] => EmptyString
  | segment :: rest => srtBlock index segment +:+ srtContent_from (S index) rest
  end.

Definition generateSubtitles (segments : list TimestampSegment) (jobId : string)
  : M Request string :=
  env ← ask;
  let outputPath := getTempPath env (jobId +:+ "_subtitles.srt") in
  call (WriteFile outputPath (srtContent_from 0 segments));;
  mret outputPath.

Definition generateMedia (scriptData : ScriptData) (jobId : string) : M Request MediaFiles :=
  audio ← generateAudio (script scriptData) jobId;
  videos ← generateVideos (visual_prompts scriptData) jobId;
  subtitles ← generateSubtitles (timestamps scriptData) jobId;
  mret {| audioPath := audio; videoPaths := videos; subtitlePath := subtitles |}.

(** ** EditorService *)

Definition concatenateVideos (paths : list string) (jobId : string) : M Request string :=
  env ← ask;
  let outputPath := getTempPath env (jobId +:+ "_concatenated.mp4") in
  call (FfmpegConcat paths outputPath);;
  mret outputPath.

Definition trimVideo (videoPath : string) (duration : Q) (jobId : string) : M Request string :=
  env ← ask;
  let outputPath := getTempPath env (jobId +:+ "_trimmed.mp4") in
  call (FfmpegTrim videoPath duration outputPath);;
  mret outputPath.

(** [Math.ceil(targetDuration / videoDuration)] *)
Definition loopCount (targetDuration videoDuration : Q) : Z :=
  Qceiling (targetDuration / videoDuration).

Definition loopVideo (videoPath : string) (targetDuration : Q) (jobId : string)
  : M Request string :=
  env ← ask;
  let outputPath := getTempPath env (jobId +:+ "_looped.mp4") in
  probed ← attempt (call (Ffprobe videoPath));
  match probed with
  | inl err => throw err
  | inr videoDuration =>
      let loopCount := loopCount targetDuration videoDuration in
      call (FfmpegLoop videoPath (loopCount - 1) targetDuration outputPath);;
      mret outputPath
  end.

Definition loopVideoToMatchAudio (videoPath audioPath jobId : string) : M Request string :=
  probedAudio ← attempt (call (Ffprobe audioPath));
  match probedAudio with
  | inl _ => mret videoPath
  | inr audioDuration =>
      probedVideo ← attempt (call (Ffprobe videoPath));
      match probedVideo with
      | inl _ => mret videoPath
      | inr videoDuration =>
          if Qle_bool audioDuration videoDuration
          then trimVideo videoPath audioDuration jobId
          else loopVideo videoPath audioDuration jobId
      end
  end.

Definition addAudioAndSubtitles (videoPath audioPath subtitlePath outputPath : string)
  : M Request unit :=
  call (FfmpegMux videoPath audioPath (subtitlesFilter subtitlePath) outputPath).

Definition assembleVideo (mediaFiles : MediaFiles) (jobId : string) : M Request string :=
  env ← ask;
  let outputPath := getTempPath env (jobId +:+ "_output.mp4") in
  try_catch
    (concatenated ← concatenateVideos (videoPaths mediaFiles) jobId;
     looped ← loopVideoToMatchAudio concatenated (audioPath mediaFiles) jobId;
     addAudioAndSubtitles looped (audioPath mediaFiles) (subtitlePath mediaFiles) outputPath;;
     mret outputPath)
    (fun error => throw error).

(** ** PublisherService *)

(** The YouTube client is created when the three OAuth settings exist. *)
Definition youtube (env : Env) : bool :=
  Js.truthy_ostring (config_get env "YOUTUBE_CLIENT_ID") &&
  Js.truthy_ostring (config_get env "YOUTUBE_CLIENT_SECRET") &&
  Js.truthy_ostring (config_get env "YOUTUBE_REDIRECT_URI").

Definition uploadToYouTube (videoPath title description : string) (tags : list string)
  : M Request string :=
  env ← ask;
  if negb (youtube env) then throw "YouTube client not initialized. Please configure YouTube credentials."
  else
    try_catch
      (videoId ← call (YoutubeInsert videoPath title description tags);
       mret ("https://www.youtube.com/watch?v=" +:+ videoId))
      (fun error => throw error).

Definition uploadToTikTok (videoPath title description : string) : M Request string :=
  env ← ask;
  if negb (Js.truthy_ostring (config_get env "TIKTOK_ACCESS_TOKEN"))
  then throw "TikTok access token not configured"
  else mret "https://tiktok.com/@user/video/placeholder".

Definition uploadToSocial (videoPath title description : string) (tags : list string)
    (uploadToYoutube uploadToTiktok : bool) : M Request (gmap string string) :=
  let uploadUrls : gmap string string := ∅ in
  uploadUrls ← (if uploadToYoutube
                then try_catch
                       (url ← uploadToYouTube videoPath title description tags;
                        mret (<["youtube" := url]> uploadUrls))
                       (fun _ => mret uploadUrls)
                else mret uploadUrls);
  uploadUrls ← (if uploadToTiktok
                then try_catch
                       (url ← uploadToTikTok videoPath title description;
                        mret (<["tiktok" := url]> uploadUrls))
                       (fun _ => mret uploadUrls)
                else mret uploadUrls);
  mret uploadUrls.

(** ** VideoGenerationProcessor *)

Record VideoGenerationJobData := {
  jobId : string;
  prompt : string;
  uploadToYoutube : option bool;
  uploadToTiktok : option bool;
  title : option string;
  description : option string;
  tags : option string }.

(** The services injected into the processor; [SD] is the type of the
    script data, which the processor only passes along. *)
Record Services (SD : Type) := {
  scriptService_generateScript : string -> string -> M Request SD;
  mediaService_generateMedia : SD -> string -> M Request MediaFiles;
  editorService_assembleVideo : MediaFiles -> string -> M Request string;
  publisherService_uploadToSocial :
    string -> string -> string -> list string -> bool -> bool -> M Request (gmap string string) }.

Arguments scriptService_generateScript {SD}.
Arguments mediaService_generateMedia {SD}.
Arguments editorService_assembleVideo {SD}.
Arguments publisherService_uploadToSocial {SD}.

Record JobResult (SD : Type) := {
  success : bool;
  result_jobId : string;
  finalVideoPath : string;
  uploadUrls : gmap string string;
  scriptData : SD }.

Arguments success {SD}.
Arguments result_jobId {SD}.
Arguments finalVideoPath {SD}.
Arguments uploadUrls {SD}.
Arguments scriptData {SD}.

Definition videoTags (tags : option string) : list string :=
  match tags with
  | Some s => if Js.truthy_string s then map Js.trim (Js.split "," s)
              else ["AI"; "Generated"; "Video"]
  | None => ["AI"; "Generated"; "Video"]
  end.

Definition handleVideoGeneration {SD} (services : Services SD) (data : VideoGenerationJobData)
  : M Event (JobResult SD) :=
  try_catch
    (progress 10;;
     scriptData ← lift (scriptService_generateScript services (prompt data) (jobId data));
     progress 25;;
     mediaFiles ← lift (mediaService_generateMedia services scriptData (jobId data));
     progress 50;;
     finalVideoPath ← lift (editorService_assembleVideo services mediaFiles (jobId data));
     progress 75;;
     uploadUrls ←
       (if Js.truthy_obool (uploadToYoutube data) || Js.truthy_obool (uploadToTiktok data)
        then
          let videoTitle :=
            Js.or_string (title data) ("AI Generated Video: " +:+ prompt data) in
          let videoDescription :=
            Js.or_string (description data)
              ("This video was automatically generated about: " +:+ prompt data) in
          lift (publisherService_uploadToSocial services finalVideoPath videoTitle
                  videoDescription (videoTags (tags data))
                  (Js.truthy_obool (uploadToYoutube data) || false)
                  (Js.truthy_obool (uploadToTiktok data) || false))
        else mret ∅);
     progress 90;;
     progress 100;;
     mret {| success := true;
             result_jobId := jobId data;
             finalVideoPath := finalVideoPath;
             uploadUrls := uploadUrls;
             scriptData := scriptData |})
    (fun error => throw error).

(** The script that goes into validation: the parsed reply, or the
    template when the reply is not JSON. *)
Definition parsed_or_fallback (env : Env) (prompt text : string) : jsval :=
  match JSON_parse env (cleanJsonText text) with
  | Some parsed => parsed
  | None => ScriptData_to_js (createFallbackScript prompt)
  end.


(** One iteration of the loop of [generateVideos]. *)
Definition clipFor (prompt : VisualPrompt) (jobId : string) : M Request string :=
  try_catch (generateSingleVideo prompt jobId)
            (fun _ => createPlaceholderVideo prompt jobId).


(** ** Results and concrete environments *)

(** The outcome of a command that yields nothing, followed by a value. *)
Definition and_return {A B} (r : Error + A) (b : B) : Error + B :=
  match r with inl e => inl e | inr _ => inr b end.

Definition is_ok {A} (r : Error + A) : bool :=
  match r with inl _ => false | inr _ => true end.

(** The value of a call, or undefined when it raised. *)
Definition ok_value {A} (r : Error + A) : option A :=
  match r with inl _ => None | inr a => Some a end.

Module Scenario.

Definition join (dir name : string) : string := dir +:+ "/" +:+ name.

Definition no_config : string -> option string := fun _ => None.

Definition some_response (r : Request) : Response r :=
  match r as r0 return Response r0 with
  | GenerateContent _ => "not json"
  | HttpPostVideo _ => "bytes"
  | ReadFile _ => "bytes"
  | YoutubeInsert _ _ _ _ => "abc123"
  | Ffprobe _ => 30%Q
  | Exec _ | WriteFile _ _ | SaveToDebug _ | FfmpegConcat _ _
  | FfmpegTrim _ _ _ | FfmpegLoop _ _ _ _ | FfmpegMux _ _ _ _ => tt
  end.

(** Nothing is configured and nothing works: no API keys, no [ffmpeg],
    no [edge-tts], a read-only disk. *)
Definition offline : Env := {|
  config_get := no_config;
  path_join := join;
  JSON_parse := fun _ => None;
  answer := fun _ r => inl "not available";
  progress_answer := fun _ _ => inr tt |}.


(** Nothing is configured, and every call that is made succeeds. *)
Definition healthy : Env := {|
  config_get := no_config;
  path_join := join;
  JSON_parse := fun _ => None;
  answer := fun _ r => inr (some_response r);
  progress_answer := fun _ _ => inr tt |}.


(** A 10 second video and a 30 second narration; the probe made at time
    [n] fails. *)
Definition probe_fails_at (n : nat) : Env := {|
  config_get := no_config;
  path_join := join;
  JSON_parse := fun _ => None;
  answer := fun t r =>
    match r as r0 return Error + Response r0 with
    | Ffprobe path =>
        if (t =? n)%nat then inl "ffprobe exited with code 1"
        else if String.eqb path "audio.mp3" then inr 30%Q else inr 10%Q
    | r0 => inr (some_response r0)
    end;
  progress_answer := fun _ _ => inr tt |}.

(** A 10 second video and a 35 second narration. *)
Definition short_video : Env := {|
  config_get := no_config;
  path_join := join;
  JSON_parse := fun _ => None;
  answer := fun t r =>
    match r as r0 return Error + Response r0 with
    | Ffprobe path => if String.eqb path "audio.mp3" then inr 35%Q else inr 10%Q
    | r0 => inr (some_response r0)
    end;
  progress_answer := fun _ _ => inr tt |}.

(** The video and the narration both last 30 seconds. *)
Definition equal_durations : Env := {|
  config_get := no_config;
  path_join := join;
  JSON_parse := fun _ => None;
  answer := fun _ r => inr (some_response r);
  progress_answer := fun _ _ => inr tt |}.

(** The tools run, except the mux, which fails. *)
Definition mux_fails : Env := {|
  config_get := no_config;
  path_join := join;
  JSON_parse := fun _ => None;
  answer := fun _ r =>
    match r as r0 return Error + Response r0 with
    | FfmpegMux _ _ _ _ => inl "ffmpeg exited with code 1"
    | r0 => inr (some_response r0)
    end;
  progress_answer := fun _ _ => inr tt |}.

(** The tools run, and no file can be written. *)
Definition disk_full : Env := {|
  config_get := no_config;
  path_join := join;
  JSON_parse := fun _ => None;
  answer := fun _ r =>
    match r as r0 return Error + Response r0 with
    | WriteFile _ _ => inl "ENOSPC: no space left on device"
    | r0 => inr (some_response r0)
    end;
  progress_answer := fun _ _ => inr tt |}.

(** YouTube is not configured, TikTok is. *)
Definition tiktok_only : Env := {|
  config_get := fun k => if String.eqb k "TIKTOK_ACCESS_TOKEN" then Some "token" else None;
  path_join := join;
  JSON_parse := fun _ => None;
  answer := fun _ r => inr (some_response r);
  progress_answer := fun _ _ => inr tt |}.

(** An object whose [script] is a number. *)
Definition script_is_a_number : jsval :=
  JObject (<["script" := JNum 42]>
           (<["visual_prompts" := Json.array [VisualPrompt_to_js
                {| vp_index := 0; vp_prompt := "A sunrise"; vp_duration := 5 |}]]>
            (<["timestamps" := Json.array [TimestampSegment_to_js
                {| ts_start := 0; ts_end := 5; ts_text := "Good morning" |}]]> ∅))).

Definition only_a_numeric_script : jsval :=
  JObject (<["script" := JNum 42]> ∅).

(** The services of the processor's unit tests: stubs that succeed. *)
Definition mockServices : Services ScriptData := {|
  scriptService_generateScript := fun prompt _ => mret (createFallbackScript prompt);
  mediaService_generateMedia := fun _ _ =>
    mret {| audioPath := "./temp/audio.mp3";
            videoPaths := ["./temp/clip_0.mp4"];
            subtitlePath := "./temp/subtitles.srt" |};
  editorService_assembleVideo := fun _ _ => mret "./temp/output.mp4";
  publisherService_uploadToSocial := fun _ _ _ _ _ _ => mret ∅ |}.

Definition mockJob : VideoGenerationJobData := {|
  jobId := "test_job_123";
  prompt := "Test video about AI";
  uploadToYoutube := Some false;
  uploadToTiktok := Some false;
  title := None;
  description := None;
  tags := None |}.

(** The stub services with the real publisher, and a job that asks for
    both uploads. *)
Definition mockServicesRealPublisher : Services ScriptData := {|
  scriptService_generateScript := fun prompt _ => mret (createFallbackScript prompt);
  mediaService_generateMedia := fun _ _ =>
    mret {| audioPath := "./temp/audio.mp3";
            videoPaths := ["./temp/clip_0.mp4"];
            subtitlePath := "./temp/subtitles.srt" |};
  editorService_assembleVideo := fun _ _ => mret "./temp/output.mp4";
  publisherService_uploadToSocial := uploadToSocial |}.

Definition uploadJob : VideoGenerationJobData := {|
  jobId := "test_job_456";
  prompt := "Tides";
  uploadToYoutube := Some true;
  uploadToTiktok := Some true;
  title := None;
  description := Some "About tides";
  tags := Some "sea, moon ,tides" |}.

(** YouTube is configured and answers with a video id. *)
Definition youtube_only : Env := {|
  config_get := fun k =>
    if String.eqb k "YOUTUBE_CLIENT_ID" || String.eqb k "YOUTUBE_CLIENT_SECRET" ||
       String.eqb k "YOUTUBE_REDIRECT_URI"
    then Some "configured" else None;
  path_join := join;
  JSON_parse := fun _ => None;
  answer := fun _ r => inr (some_response r);
  progress_answer := fun _ _ => inr tt |}.

Definition sunrise : VisualPrompt :=
  {| vp_index := 0; vp_prompt := "A sunrise"; vp_duration := 5 |}.

Definition two_cues : list TimestampSegment :=
  [ {| ts_start := 0; ts_end := 3 # 2; ts_text := "Hello" |};
    {| ts_start := 3 # 2; ts_end := 4; ts_text := "world" |} ].

Definition mediaFiles : MediaFiles :=
  {| audioPath := "audio.mp3"; videoPaths := ["clip_0.mp4"]; subtitlePath := "subtitles.srt" |}.

End Scenario.

(** ** Further notions used in the statements *)

(** The number of occurrences of a character. *)
Fixpoint count_char (c : ascii) (s : string) : nat :=
  match s with
  | EmptyString => O
  | String a rest => (if Ascii.eqb a c then 1 else 0) + count_char c rest
  end.

(** The files of a job in the temporary directory. *)
Definition outputFile (env : Env) (jobId : string) : string :=
  getTempPath env (jobId +:+ "_output.mp4").

Definition concatenatedFile (env : Env) (jobId : string) : string :=
  getTempPath env (jobId +:+ "_concatenated.mp4").



Definition subtitleFile (env : Env) (jobId : string) : string :=
  getTempPath env (jobId +:+ "_subtitles.srt").

(** The mux call of [addAudioAndSubtitles] for a job. *)
Definition muxRequest (env : Env) (video : string) (mediaFiles : MediaFiles)
    (jobId : string) : Request :=
  FfmpegMux video (audioPath mediaFiles) (subtitlesFilter (subtitlePath mediaFiles))
    (outputFile env jobId).

(** The first and the last character of a string are white space. *)
Definition starts_with_space (s : string) : bool :=
  match s with
  | String a _ => Ascii.is_space a
  | EmptyString => false
  end.

Definition ends_with_space (s : string) : bool :=
  starts_with_space (Js.reverse_string s).

(** The progress values of a complete job. *)
Definition checkpoints : list Z := [10; 25; 50; 75; 90; 100].

(** [trimStart] on the characters of a string. *)
Fixpoint ltrim (l : list ascii) : list ascii :=
  match l with
  | a :: rest => if Ascii.is_space a then ltrim rest else l
  | [] => []
  end.

Definition head_is_space (l : list ascii) : bool :=
  match l with
  | a :: _ => Ascii.is_space a
  | [] => false
  end.

(** A tag as the processor hands it to the publisher: no comma in it
    and no white space around it. *)
Definition clean_tag (tag : string) : Prop :=
  occurs "," tag = false /\ starts_with_space tag = false /\ ends_with_space tag = false.

(** The assignment [v.k = x] on an object. *)
Definition put (v : jsval) (k : string) (x : jsval) : jsval :=
  match v with
  | JArray elems props => JArray elems (<[k := x]> props)
  | JObject props => JObject (<[k := x]> props)
  | _ => v
  end.

(** The defaults of [validateScriptData]. *)
Definition defaultVisualPrompts : jsval :=
  Json.array [VisualPrompt_to_js
    {| vp_index := 0; vp_prompt := "Cinematic video scene"; vp_duration := 10 |}].

Definition defaultTimestamps (text : string) : jsval :=
  Json.array [TimestampSegment_to_js {| ts_start := 0; ts_end := 10; ts_text := text |}].

(** A reply that needs no repair. *)
Definition well_formed_script (data : jsval) : Prop :=
  Json.is_object data = true /\
  Json.truthy (Json.prop data "script") = true /\
  Json.is_nonempty_array (Json.prop data "visual_prompts") = true /\
  Json.is_nonempty_array (Json.prop data "timestamps") = true.

(** A reply that parses to a well-formed script. *)
Definition good_reply : Env := {|
  config_get := fun k => if String.eqb k "GEMINI_API_KEY" then Some "key" else None;
  path_join := Scenario.join;
  JSON_parse := fun _ => Some (ScriptData_to_js
    {| script := "Tides follow the moon.";
       visual_prompts := [Scenario.sunrise];
       timestamps := Scenario.two_cues |});
  answer := fun _ r => inr (Scenario.some_response r);
  progress_answer := fun _ _ => inr tt |}.

(** The same reply, with a debug directory that cannot be written. *)
Definition good_reply_no_debug : Env := {|
  config_get := fun k => if String.eqb k "GEMINI_API_KEY" then Some "key" else None;
  path_join := Scenario.join;
  JSON_parse := fun _ => Some (ScriptData_to_js
    {| script := "Tides follow the moon.";
       visual_prompts := [Scenario.sunrise];
       timestamps := Scenario.two_cues |});
  answer := fun _ r =>
    match r as r0 return Error + Response r0 with
    | SaveToDebug _ => inl "EACCES: permission denied"
    | r0 => inr (Scenario.some_response r0)
    end;
  progress_answer := fun _ _ => inr tt |}.

(** The character of which a Markdown fence is made. *)
Definition backtick : ascii := "`"%char.

(** * Verification *)

(** ** Strings *)

Lemma append_cons (a : ascii) (s t : string) :
  String a s +:+ t = String a (s +:+ t).
Proof. reflexivity. Qed.

Lemma append_assoc (s t u : string) : (s +:+ t) +:+ u = s +:+ (t +:+ u).
Proof.
  induction s as [|a s IH]; [reflexivity|].
  rewrite !append_cons, IH. reflexivity.
Qed.

(** ** The subtitle timestamp formatter *)

Section FormatSrtTime.

Local Open Scope Q_scope.

Lemma Qfloor_range (x : Q) (n : Z) :
  0 <= x -> x < inject_Z n -> (0 <= Qfloor x < n)%Z.
Proof.
  intros H0 Hn. split.
  - change 0%Z with (Qfloor 0). now apply Qfloor_resp_le.
  - rewrite Zlt_Qlt. eapply Qle_lt_trans; [apply Qfloor_le | exact Hn].
Qed.

Lemma Qtrunc_nonneg (x : Q) : 0 <= x -> Js.Qtrunc x = Qfloor x.
Proof.
  intros H. unfold Js.Qtrunc.
  destruct (Qle_bool 0 x) eqn:E; [reflexivity|].
  apply Qle_bool_iff in H. congruence.
Qed.

(** For a non-negative dividend the remainder lies in [0, b). *)
Lemma rem_range (a b : Q) : 0 <= a -> 0 < b -> 0 <= Js.rem a b /\ Js.rem a b < b.
Proof.
  intros Ha Hb. unfold Js.rem.
  assert (Hq : 0 <= a / b).
  { apply Qle_shift_div_l; [exact Hb | lra]. }
  rewrite (Qtrunc_nonneg _ Hq).
  pose proof (Qfloor_le (a / b)) as Hlo.
  pose proof (Qlt_floor (a / b)) as Hhi.
  rewrite inject_Z_plus in Hhi.
  set (f := inject_Z (Qfloor (a / b))) in *.
  assert (Hab : a / b * b == a) by (field; lra).
  assert (H1 : f * b <= a / b * b) by (apply Qmult_le_compat_r; lra).
  assert (H2 : a / b * b < (f + inject_Z 1) * b) by (apply Qmult_lt_compat_r; lra).
  change (inject_Z 1) with 1 in H2.
  rewrite Hab in H1, H2. split; lra.
Qed.







(** The four fields of the timestamp stay in range: minutes and seconds
    below 60, milliseconds below 1000, and hours below 100 when the input
    is below 100 hours. *)
Lemma formatSrtTime_fields (seconds : Q) :
  0 <= seconds ->
  (0 <= Qfloor (seconds / 3600))%Z /\
  (seconds < 360000 -> (Qfloor (seconds / 3600) < 100)%Z) /\
  (0 <= Qfloor (Js.rem seconds 3600 / 60) < 60)%Z /\
  (0 <= Qfloor (Js.rem seconds 60) < 60)%Z /\
  (0 <= Qfloor (Js.rem seconds 1 * 1000) < 1000)%Z.
Proof.
  intros H0.
  destruct (rem_range seconds 3600 H0 ltac:(lra)) as [Ha Hb].
  destruct (rem_range seconds 60 H0 ltac:(lra)) as [Hc Hd].
  destruct (rem_range seconds 1 H0 ltac:(lra)) as [He Hf].
  assert (Hh : 0 <= seconds / 3600) by (apply Qle_shift_div_l; lra).
  split; [|split; [|split; [|split]]].
  - change 0%Z with (Qfloor 0). now apply Qfloor_resp_le.
  - intros Hlt. apply (Qfloor_range _ 100 Hh).
    apply Qlt_shift_div_r; [lra|]. change (inject_Z 100) with 100. lra.
  - apply (Qfloor_range _ 60); [apply Qle_shift_div_l; lra|].
    apply Qlt_shift_div_r; [lra|]. change (inject_Z 60) with 60. lra.
  - apply (Qfloor_range _ 60 Hc). exact Hd.
  - apply (Qfloor_range _ 1000); [lra|]. change (inject_Z 1000) with 1000. lra.
Qed.

End FormatSrtTime.

(** The bound of 100 hours is sharp: from there on the hours take at
    least three digits and the string is longer than the pattern. *)

Section HundredHours.

Lemma length_append (s t : string) :
  String.length (s +:+ t) = (String.length s + String.length t)%nat.
Proof.
  induction s as [|a s IH]; [reflexivity|].
  rewrite append_cons. cbn [String.length]. now rewrite IH.
Qed.

Lemma length_list_ascii (s : string) :
  length (list_ascii_of_string s) = String.length s.
Proof. induction s as [|a s IH]; [reflexivity|]. cbn. now rewrite IH. Qed.

Lemma matches_srt_pattern_length (s : string) :
  matches_srt_pattern s = true -> String.length s = 12%nat.
Proof.
  unfold matches_srt_pattern. rewrite <- length_list_ascii.
  destruct (list_ascii_of_string s) as [|? l]; [discriminate|].
  do 11 (destruct l as [|? l]; [discriminate|]).
  destruct l; [reflexivity|discriminate].
Qed.

Lemma length_string_of_list (l : list ascii) :
  String.length (string_of_list_ascii l) = length l.
Proof. induction l as [|a l IH]; [reflexivity|]. cbn. now rewrite IH. Qed.

(** [padStart] yields the longer of the width and the string. *)
Lemma length_padStart (w : nat) (c : ascii) (s : string) :
  String.length (Js.padStart w c s) = Nat.max w (String.length s).
Proof.
  unfold Js.padStart. rewrite length_append, length_string_of_list, length_replicate. lia.
Qed.

Lemma length_string_of_uint (d : Decimal.uint) :
  String.length (NilEmpty.string_of_uint d) = Decimal.nb_digits d.
Proof. induction d; cbn; congruence. Qed.

Lemma two_digits_below_100 (d : Decimal.uint) :
  (Decimal.nb_digits d <= 2)%nat -> (Pos.of_uint d < 100)%N.
Proof.
  intros H.
  destruct d as [|d|d|d|d|d|d|d|d|d|d]; [reflexivity|..];
    (destruct d as [|d|d|d|d|d|d|d|d|d|d]; [reflexivity|..];
     (cbn [Decimal.nb_digits] in H;
      assert (H0 : Decimal.nb_digits d = 0%nat) by lia;
      apply DecimalFacts.nb_digits_0 in H0; subst d; reflexivity)).
Qed.

Lemma String_of_Z_three_digits (n : Z) :
  (100 <= n)%Z -> (3 <= String.length (Js.String_of_Z n))%nat.
Proof.
  intros Hn. destruct n as [|p|p]; try lia.
  unfold Js.String_of_Z. cbn [Z.to_int NilZero.string_of_int].
  assert (Hd : (3 <= Decimal.nb_digits (Pos.to_uint p))%nat).
  { destruct (le_lt_dec (Decimal.nb_digits (Pos.to_uint p)) 2) as [Hle|Hgt]; [|lia].
    apply two_digits_below_100 in Hle.
    rewrite DecimalPos.Unsigned.of_to in Hle.
    change (p < 100)%positive in Hle. change (100 <= p)%positive in Hn.
    apply Pos.lt_nle in Hle. contradiction. }
  unfold NilZero.string_of_uint.
  pose proof (length_string_of_uint (Pos.to_uint p)) as Hlen.
  destruct (Pos.to_uint p); [cbn in Hd; lia|..]; rewrite Hlen; exact Hd.
Qed.

Local Open Scope Q_scope.

Lemma formatSrtTime_pattern_only_below_100_hours (seconds : Q) :
  360000 <= seconds -> matches_srt_pattern (formatSrtTime seconds) = false.
Proof.
  intros Hge.
  assert (H0 : 0 <= seconds) by lra.
  destruct (formatSrtTime_fields seconds H0) as (_ & _ & Hm & Hs & Hx).
  assert (Hh : (100 <= Qfloor (seconds / 3600))%Z).
  { change 100%Z with (Qfloor 100). apply Qfloor_resp_le.
    apply Qle_shift_div_l; lra. }
  apply String_of_Z_three_digits in Hh.
  destruct (matches_srt_pattern (formatSrtTime seconds)) eqn:Hmatch; [|reflexivity].
  apply matches_srt_pattern_length in Hmatch.
  unfold formatSrtTime in Hmatch. rewrite !length_append, !length_padStart in Hmatch.
  cbn [String.length] in Hmatch. lia.
Qed.

End HundredHours.

(** From 100 hours on the shape is kept, with a longer hours field. *)

Section WideHours.

Lemma list_ascii_append (s t : string) :
  list_ascii_of_string (s +:+ t) = list_ascii_of_string s ++ list_ascii_of_string t.
Proof.
  induction s as [|a s IH]; [reflexivity|].
  rewrite append_cons. cbn. now rewrite IH.
Qed.

Lemma list_ascii_of_list (l : list ascii) :
  list_ascii_of_string (string_of_list_ascii l) = l.
Proof. induction l as [|a l IH]; [reflexivity|]. cbn. now rewrite IH. Qed.






Local Open Scope Q_scope.




End WideHours.

(** ** The subtitle path in the filter argument *)

Section SubtitlePath.

Lemma escapeSubtitlePath_cons (a : ascii) (rest : string) :
  escapeSubtitlePath (String a rest) = escapePathChar a +:+ escapeSubtitlePath rest.
Proof.
  unfold escapeSubtitlePath, escapePathChar. cbn [Js.replace_char].
  destruct (Ascii.eqb a Js.backslash) eqn:Eb.
  - reflexivity.
  - cbn [Js.replace_char]. destruct (Ascii.eqb a ":"); reflexivity.
Qed.






End SubtitlePath.

(** ** The fallback script *)

Section FallbackScript.

Local Open Scope Q_scope.

(** C4.  For every prompt the fallback script is the fixed template
    around the prompt: one narration sentence containing the prompt,
    exactly three visual cues of 10 seconds each (cinematic, close-up and
    wide angle, each framed around the prompt), and exactly three subtitle
    cues over [0,10), [10,20) and [20,30) that are contiguous, do not
    overlap, and whose texts put together give back the narration. *)
Theorem createFallbackScript_template (prompt : string) :
  let d := createFallbackScript prompt in
  script d = "This is a video about " +:+ prompt +:+
             ". We'll explore this fascinating topic in detail." /\
  map vp_prompt (visual_prompts d) =
    ["Cinematic scene showing " +:+ prompt;
     "Close-up details of " +:+ prompt;
     "Wide angle view of " +:+ prompt] /\
  map vp_duration (visual_prompts d) = [10; 10; 10] /\
  map vp_index (visual_prompts d) = [0; 1; 2]%Z /\
  length (visual_prompts d) = 3%nat /\
  length (timestamps d) = 3%nat /\
  map (fun c => (ts_start c, ts_end c)) (timestamps d) = [(0, 10); (10, 20); (20, 30)] /\
  contiguous_from 0 (timestamps d) /\
  String.concat " " (map ts_text (timestamps d)) = script d.
Proof.
  cbn -[String.append]. repeat split; try reflexivity.
  rewrite !append_assoc. reflexivity.
Qed.

End FallbackScript.

(** ** Validation of the generated script *)

Section ValidateScriptData.

Lemma get_object (data : jsval) (k : string) :
  Json.is_object data = true -> Json.get data k = inr (Json.prop data k).
Proof. destruct data; try discriminate; reflexivity. Qed.

Lemma set_object (data : jsval) (k : string) (x : jsval) :
  Json.is_object data = true ->
  exists data', Json.set data k x = inr data' /\
    Json.is_object data' = true /\
    Json.prop data' k = Some x /\
    (forall k', k' <> k -> Json.prop data' k' = Json.prop data k').
Proof.
  destruct data; try discriminate; intros _; eexists; (split; [reflexivity|]);
    (split; [reflexivity|]); cbn; (split; [apply lookup_insert_eq|]);
    intros k' Hk'; now apply lookup_insert_ne.
Qed.

Lemma nonempty_array_iff (v : option jsval) :
  Json.is_nonempty_array v = negb (negb (Json.isArray v) || (Json.array_length v =? 0)%nat).
Proof. destruct v as [[| | | |[|x l] ?|]|]; reflexivity. Qed.

Lemma nonempty_array_truthy (v : option jsval) :
  Json.is_nonempty_array v = true -> Json.truthy v = true.
Proof. destruct v as [[| | | |[|x l] ?|]|]; try discriminate; reflexivity. Qed.

End ValidateScriptData.

Section ValidateScriptDataSteps.

(** Each of the three repairs of [validateScriptData] leaves an object
    whose repaired field is as required and whose other fields are kept. *)

Lemma ensure_script (data : jsval) :
  Json.is_object data = true ->
  exists d,
    (if negb (Json.truthy (Json.prop data "script"))
     then Json.set data "script" (JStr "Generated video content.")
     else mret data) = inr d /\
    Json.is_object d = true /\
    Json.truthy (Json.prop d "script") = true /\
    (Json.truthy (Json.prop data "script") = true ->
     Json.prop d "script" = Json.prop data "script") /\
    (Json.truthy (Json.prop data "script") = false ->
     Json.prop d "script" = Some (JStr "Generated video content.")).
Proof.
  intros Hobj. destruct (Json.truthy (Json.prop data "script")) eqn:Ht; cbn [negb].
  - exists data. repeat split; try assumption; try reflexivity. discriminate.
  - destruct (set_object data "script" (JStr "Generated video content.") Hobj)
      as (d & Hset & Hd & Hk & _).
    exists d. rewrite Hk. repeat split; try assumption; try reflexivity. discriminate.
Qed.

Lemma ensure_array (data : jsval) (k : string) (dflt : jsval) :
  Json.is_object data = true ->
  Json.is_nonempty_array (Some dflt) = true ->
  exists d,
    (if negb (Json.isArray (Json.prop data k)) || (Json.array_length (Json.prop data k) =? 0)%nat
     then Json.set data k dflt
     else mret data) = inr d /\
    Json.is_object d = true /\
    Json.is_nonempty_array (Json.prop d k) = true /\
    (forall k', k' <> k -> Json.prop d k' = Json.prop data k').
Proof.
  intros Hobj Hdflt.
  pose proof (nonempty_array_iff (Json.prop data k)) as Hne.
  destruct (negb (Json.isArray (Json.prop data k)) ||
            (Json.array_length (Json.prop data k) =? 0)%nat).
  - destruct (set_object data k dflt Hobj) as (d & Hset & Hd & Hk & Hother).
    exists d. rewrite Hk. auto.
  - exists data. auto.
Qed.

(** What validation guarantees about an object. *)
Lemma validateScriptData_repairs (data : jsval) :
  Json.is_object data = true ->
  (forall data',
      validateScriptData data = inr data' ->
      Json.is_object data' = true /\
      Json.truthy (Json.prop data' "script") = true /\
      Json.is_nonempty_array (Json.prop data' "visual_prompts") = true /\
      Json.is_nonempty_array (Json.prop data' "timestamps") = true) /\
  ((Json.truthy (Json.prop data "script") = true ->
    exists s, Json.prop data "script" = Some (JStr s)) ->
   exists data',
      validateScriptData data = inr data' /\
      Json.is_nonempty_string (Json.prop data' "script") = true).
Proof.
  intros Hobj. unfold validateScriptData.
  rewrite (get_object data "script" Hobj). cbn [mbind sum_Error_bind]; cbv beta.
  destruct (ensure_script data Hobj) as (d1 & -> & Hobj1 & Hs1 & Hkeep1 & Hdflt1).
  cbn [mbind sum_Error_bind]; cbv beta. rewrite (get_object d1 "visual_prompts" Hobj1). cbn [mbind sum_Error_bind]; cbv beta.
  destruct (ensure_array d1 "visual_prompts"
              (Json.array [VisualPrompt_to_js
                 {| vp_index := 0; vp_prompt := "Cinematic video scene"; vp_duration := 10 |}])
              Hobj1 eq_refl) as (d2 & -> & Hobj2 & Hv2 & Hkeep2).
  cbn [mbind sum_Error_bind]; cbv beta. rewrite (get_object d2 "timestamps" Hobj2). cbn [mbind sum_Error_bind]; cbv beta.
  assert (Hs2 : Json.prop d2 "script" = Json.prop d1 "script") by (apply Hkeep2; discriminate).
  pose proof (nonempty_array_iff (Json.prop d2 "timestamps")) as Hne.
  destruct (negb (Json.isArray (Json.prop d2 "timestamps")) ||
            (Json.array_length (Json.prop d2 "timestamps") =? 0)%nat) eqn:Hts.
  - (* the timestamps need a default: its text is cut from the script *)
    rewrite (get_object d2 "script" Hobj2), Hs2. cbn [mbind sum_Error_bind]; cbv beta.
    split.
    + intros data'. destruct (Json.substring0 100 (Json.prop d1 "script")) as [e|text];
        cbn [mbind sum_Error_bind]; cbv beta; [intros H; discriminate H|].
      destruct (set_object d2 "timestamps"
                  (Json.array [TimestampSegment_to_js
                     {| ts_start := 0; ts_end := 10; ts_text := text |}]) Hobj2)
        as (d3 & -> & Hobj3 & Hk3 & Hkeep3).
      cbn [mbind sum_Error_bind mret sum_Error_ret]. intros [= <-]. rewrite Hk3, !Hkeep3, Hs2 by discriminate. auto.
    + intros Hstr.
      assert (exists s, Json.prop d1 "script" = Some (JStr s) /\ Js.truthy_string s = true)
        as (s & Hs & Hnonempty).
      { destruct (Json.truthy (Json.prop data "script")) eqn:Ht.
        - destruct (Hstr eq_refl) as (s & Hs). exists s.
          rewrite Hkeep1, Hs by reflexivity. split; [reflexivity|].
          rewrite Hs in Ht. exact Ht.
        - eexists. rewrite Hdflt1 by reflexivity. split; reflexivity. }
      rewrite Hs. cbn [Json.substring0 mbind sum_Error_bind].
      destruct (set_object d2 "timestamps"
                  (Json.array [TimestampSegment_to_js
                     {| ts_start := 0; ts_end := 10; ts_text := Js.substring0 100 s |}]) Hobj2)
        as (d3 & -> & Hobj3 & Hk3 & Hkeep3).
      cbn [mbind sum_Error_bind mret sum_Error_ret].
      exists d3. split; [reflexivity|].
      rewrite Hkeep3, Hs2, Hs by discriminate. exact Hnonempty.
  - (* the timestamps are kept *)
    cbn [mbind sum_Error_bind mret sum_Error_ret].
    split.
    + intros data' [= <-]. rewrite Hs2. rewrite Hne. auto.
    + intros Hstr. exists d2. split; [reflexivity|]. rewrite Hs2.
      destruct (Json.truthy (Json.prop data "script")) eqn:Ht.
      * destruct (Hstr eq_refl) as (s & Hs).
        rewrite Hkeep1, Hs by reflexivity. rewrite Hs in Ht. exact Ht.
      * rewrite Hdflt1 by reflexivity. reflexivity.
Qed.

End ValidateScriptDataSteps.

Section ValidateScriptDataExamples.

(** The claim as stated fails on an object whose [script] is a number:
    validation returns it unchanged, and its [script] is not a string. *)
Lemma validateScriptData_keeps_numeric_script :
  Json.is_object Scenario.script_is_a_number = true /\
  exists data',
    validateScriptData Scenario.script_is_a_number = inr data' /\
    Json.prop data' "script" = Some (JNum 42) /\
    Json.is_nonempty_string (Json.prop data' "script") = false.
Proof.
  split; [reflexivity|]. eexists. split; [reflexivity|]. split; reflexivity.
Qed.

(** And when the default subtitle cue has to be cut from such a script,
    validation throws. *)
Example validateScriptData_throws_on_numeric_script :
  validateScriptData Scenario.only_a_numeric_script =
    inl "TypeError: data.script.substring is not a function".
Proof. reflexivity. Qed.

End ValidateScriptDataExamples.

(** ** The monad *)

Section Monad.

Context {Ev : Type}.

Lemma run_bind {A B} (m : M Ev A) (f : A -> M Ev B) (env : Env) (t : nat) :
  run (m ≫= f) env t =
    match run m env t with
    | (tr, inl e) => (tr, inl e)
    | (tr, inr a) =>
        let '(tr', r) := run (f a) env (length tr + t)%nat in (tr ++ tr', r)
    end.
Proof. reflexivity. Qed.

Lemma run_ret {A} (a : A) (env : Env) (t : nat) :
  run (mret a : M Ev A) env t = ([], inr a).
Proof. reflexivity. Qed.

End Monad.

(** ** Duration reconciliation *)

(** Unfolding of the monad in a goal about [run]. *)
Ltac run_simpl :=
  cbv beta iota delta
    [run mbind M_bind mret M_ret attempt call ask throw try_catch lift_sum saveToDebug];
  cbn [length Nat.add app].

Tactic Notation "run_unfold" constr(f) := unfold f; run_simpl.

(** Case analysis on the outcome of the next external call. *)
Ltac destruct_answer :=
  match goal with
  | |- context [answer ?env ?t ?r] =>
      let e := fresh "e" in
      let x := fresh "x" in
      destruct (answer env t r) as [e|x] eqn:?; run_simpl
  end.

Section Reconciler.

Local Open Scope Q_scope.

Lemma loopCount_at_least_2 (audioDuration videoDuration : Q) :
  0 < videoDuration -> videoDuration < audioDuration ->
  (2 <= loopCount audioDuration videoDuration)%Z.
Proof.
  intros Hv Hlt. unfold loopCount.
  assert (H1 : 1 < audioDuration / videoDuration).
  { apply Qlt_shift_div_l; [exact Hv | lra]. }
  pose proof (Qle_ceiling (audioDuration / videoDuration)) as Hc.
  assert (H2 : inject_Z 1 < inject_Z (Qceiling (audioDuration / videoDuration))).
  { change (inject_Z 1) with 1. lra. }
  rewrite <- Zlt_Qlt in H2. lia.
Qed.

Lemma loopCount_tie (audioDuration videoDuration : Q) :
  0 < videoDuration -> audioDuration == videoDuration ->
  loopCount audioDuration videoDuration = 1%Z.
Proof.
  intros Hv Heq. unfold loopCount.
  assert (H : audioDuration / videoDuration == 1) by (rewrite Heq; field; lra).
  rewrite H. reflexivity.
Qed.

Lemma run_trimVideo env t videoPath duration jobId :
  let outputPath := getTempPath env (jobId +:+ "_trimmed.mp4") in
  run (trimVideo videoPath duration jobId) env t =
    ([FfmpegTrim videoPath duration outputPath],
     and_return (answer env t (FfmpegTrim videoPath duration outputPath)) outputPath).
Proof.
  run_unfold trimVideo.
  destruct_answer; reflexivity.
Qed.

Lemma run_loopVideo env t videoPath targetDuration jobId videoDuration :
  let outputPath := getTempPath env (jobId +:+ "_looped.mp4") in
  let request :=
    FfmpegLoop videoPath (loopCount targetDuration videoDuration - 1) targetDuration outputPath in
  answer env t (Ffprobe videoPath) = inr videoDuration ->
  run (loopVideo videoPath targetDuration jobId) env t =
    ([Ffprobe videoPath; request], and_return (answer env (1 + t)%nat request) outputPath).
Proof.
  intros outputPath request Hprobe. subst outputPath request. cbn [Nat.add].
  run_unfold loopVideo. rewrite Hprobe. run_simpl.
  destruct_answer; reflexivity.
Qed.

Lemma run_loopVideo_probe_fails env t videoPath targetDuration jobId err :
  answer env t (Ffprobe videoPath) = inl err ->
  run (loopVideo videoPath targetDuration jobId) env t = ([Ffprobe videoPath], inl err).
Proof.
  intros Hprobe. run_unfold loopVideo. rewrite Hprobe. reflexivity.
Qed.

(** When a probe of the reconciler itself fails, the video is used as
    it is and no processing is started. *)
Lemma loopVideoToMatchAudio_audio_probe_fails env t videoPath audioPath jobId err :
  answer env t (Ffprobe audioPath) = inl err ->
  run (loopVideoToMatchAudio videoPath audioPath jobId) env t =
    ([Ffprobe audioPath], inr videoPath).
Proof.
  intros Hprobe. run_unfold loopVideoToMatchAudio. rewrite Hprobe. reflexivity.
Qed.

Lemma loopVideoToMatchAudio_video_probe_fails env t videoPath audioPath jobId audioDuration err :
  answer env t (Ffprobe audioPath) = inr audioDuration ->
  answer env (1 + t)%nat (Ffprobe videoPath) = inl err ->
  run (loopVideoToMatchAudio videoPath audioPath jobId) env t =
    ([Ffprobe audioPath; Ffprobe videoPath], inr videoPath).
Proof.
  intros Ha Hv. cbn [Nat.add] in Hv.
  run_unfold loopVideoToMatchAudio. rewrite Ha. run_simpl.
  rewrite Hv. reflexivity.
Qed.

(** C1.  For all durations [videoDuration, audioDuration > 0] probed by
    the reconciler: if [videoDuration >= audioDuration] the video is
    trimmed to [audioDuration] and no loop instruction is issued; if
    [videoDuration < audioDuration] the source is looped with
    [loopCount = ceil(audioDuration / videoDuration) >= 2], repeated
    [loopCount - 1] additional times and cut to [audioDuration]; and on
    the tie [videoDuration == audioDuration] the formula gives 1 and the
    trim path is taken. *)
Theorem loopVideoToMatchAudio_trim_or_loop
    env t videoPath audioPath jobId (videoDuration audioDuration : Q) :
  0 < videoDuration -> 0 < audioDuration ->
  answer env t (Ffprobe audioPath) = inr audioDuration ->
  answer env (1 + t)%nat (Ffprobe videoPath) = inr videoDuration ->
  answer env (2 + t)%nat (Ffprobe videoPath) = inr videoDuration ->
  let trimmed := getTempPath env (jobId +:+ "_trimmed.mp4") in
  let looped := getTempPath env (jobId +:+ "_looped.mp4") in
  let trim := FfmpegTrim videoPath audioDuration trimmed in
  let loop :=
    FfmpegLoop videoPath (loopCount audioDuration videoDuration - 1) audioDuration looped in
  (audioDuration <= videoDuration ->
   run (loopVideoToMatchAudio videoPath audioPath jobId) env t =
     ([Ffprobe audioPath; Ffprobe videoPath; trim],
      and_return (answer env (2 + t)%nat trim) trimmed)) /\
  (videoDuration < audioDuration ->
   loopCount audioDuration videoDuration = Qceiling (audioDuration / videoDuration) /\
   (2 <= loopCount audioDuration videoDuration)%Z /\
   run (loopVideoToMatchAudio videoPath audioPath jobId) env t =
     ([Ffprobe audioPath; Ffprobe videoPath; Ffprobe videoPath; loop],
      and_return (answer env (3 + t)%nat loop) looped)) /\
  (audioDuration == videoDuration ->
   loopCount audioDuration videoDuration = 1%Z /\
   run (loopVideoToMatchAudio videoPath audioPath jobId) env t =
     ([Ffprobe audioPath; Ffprobe videoPath; trim],
      and_return (answer env (2 + t)%nat trim) trimmed)).
Proof.
  intros Hv0 Ha0 Ha Hv Hv2 trimmed looped trim loop. cbn [Nat.add] in *.
  assert (Htrim : audioDuration <= videoDuration ->
    run (loopVideoToMatchAudio videoPath audioPath jobId) env t =
      ([Ffprobe audioPath; Ffprobe videoPath; trim],
       and_return (answer env (2 + t)%nat trim) trimmed)).
  { intros Hle. apply Qle_bool_iff in Hle.
    run_unfold loopVideoToMatchAudio. rewrite Ha. run_simpl. rewrite Hv. run_simpl.
    rewrite Hle. cbv iota. fold (run (trimVideo videoPath audioDuration jobId) env (S (S t))).
    rewrite run_trimVideo. reflexivity. }
  split; [exact Htrim|]. split.
  - intros Hlt. split; [reflexivity|]. split; [now apply loopCount_at_least_2|].
    assert (Hle : Qle_bool audioDuration videoDuration = false).
    { destruct (Qle_bool audioDuration videoDuration) eqn:E; [|reflexivity].
      apply Qle_bool_iff in E. lra. }
    run_unfold loopVideoToMatchAudio. rewrite Ha. run_simpl. rewrite Hv. run_simpl.
    rewrite Hle. cbv iota. fold (run (loopVideo videoPath audioDuration jobId) env (S (S t))).
    rewrite (run_loopVideo _ _ _ _ _ _ Hv2). reflexivity.
  - intros Heq. split; [now apply loopCount_tie|]. apply Htrim. lra.
Qed.

Lemma loopVideoToMatchAudio_witness :
  (0 < 10 /\ 0 < 35 /\
   answer Scenario.short_video 0 (Ffprobe "audio.mp3") = inr 35 /\
   answer Scenario.short_video 1 (Ffprobe "video.mp4") = inr 10 /\
   answer Scenario.short_video 2 (Ffprobe "video.mp4") = inr 10) /\
  run (loopVideoToMatchAudio "video.mp4" "audio.mp3" "job") Scenario.short_video 0 =
    ([Ffprobe "audio.mp3"; Ffprobe "video.mp4"; Ffprobe "video.mp4";
      FfmpegLoop "video.mp4" 3 35 "./temp/job_looped.mp4"],
     inr "./temp/job_looped.mp4").
Proof.
  assert (Hv : 0 < 10) by (unfold Qlt; simpl; lia).
  assert (Ha : 0 < 35) by (unfold Qlt; simpl; lia).
  assert (Hlt : 10 < 35) by (unfold Qlt; simpl; lia).
  split; [repeat split; assumption|].
  destruct (loopVideoToMatchAudio_trim_or_loop Scenario.short_video 0
              "video.mp4" "audio.mp3" "job" 10 35 Hv Ha eq_refl eq_refl eq_refl)
    as (_ & Hloop & _).
  destruct (Hloop Hlt) as (_ & _ & Hrun). exact Hrun.
Defined.

(** The tie, run: 30 seconds of video for 30 seconds of narration are
    trimmed, not looped, and the formula gives 1. *)
Example reconciliation_exact_match_trims :
  run (loopVideoToMatchAudio "video.mp4" "audio.mp3" "job") Scenario.equal_durations 0 =
    ([Ffprobe "audio.mp3"; Ffprobe "video.mp4";
      FfmpegTrim "video.mp4" 30 "./temp/job_trimmed.mp4"],
     inr "./temp/job_trimmed.mp4") /\
  loopCount 30 30 = 1%Z /\ loopCount 35 10 = 4%Z.
Proof. repeat split. Qed.

(** The loop step probes the video once more, and a failure of that
    probe is raised to the caller. *)
Lemma loopVideoToMatchAudio_reprobe_fails
    env t videoPath audioPath jobId audioDuration videoDuration err :
  answer env t (Ffprobe audioPath) = inr audioDuration ->
  answer env (1 + t)%nat (Ffprobe videoPath) = inr videoDuration ->
  videoDuration < audioDuration ->
  answer env (2 + t)%nat (Ffprobe videoPath) = inl err ->
  run (loopVideoToMatchAudio videoPath audioPath jobId) env t =
    ([Ffprobe audioPath; Ffprobe videoPath; Ffprobe videoPath], inl err).
Proof.
  intros Ha Hv Hlt Hre. cbn [Nat.add] in *.
  assert (Hle : Qle_bool audioDuration videoDuration = false).
  { destruct (Qle_bool audioDuration videoDuration) eqn:E; [|reflexivity].
    apply Qle_bool_iff in E. lra. }
  run_unfold loopVideoToMatchAudio. rewrite Ha. run_simpl. rewrite Hv. run_simpl.
  rewrite Hle. cbv iota. fold (run (loopVideo videoPath audioDuration jobId) env (S (S t))).
  rewrite (run_loopVideo_probe_fails _ _ _ _ _ _ Hre). reflexivity.
Qed.

(** C6, evaluated where the code departs from it.  A 10 second video
    and a 30 second narration are probed successfully; the loop step
    probes the video again and that probe fails.  The claim asks for the
    original video path; the code rejects, and with it the whole
    assembly. *)
Theorem reconciliation_reprobe_failure_is_fatal :
  run (loopVideoToMatchAudio "video.mp4" "audio.mp3" "job") (Scenario.probe_fails_at 2) 0 =
    ([Ffprobe "audio.mp3"; Ffprobe "video.mp4"; Ffprobe "video.mp4"],
     inl "ffprobe exited with code 1") /\
  run (assembleVideo Scenario.mediaFiles "job") (Scenario.probe_fails_at 3) 0 =
    ([FfmpegConcat ["clip_0.mp4"] "./temp/job_concatenated.mp4";
      Ffprobe "audio.mp3";
      Ffprobe "./temp/job_concatenated.mp4";
      Ffprobe "./temp/job_concatenated.mp4"],
     inl "ffprobe exited with code 1").
Proof. split; reflexivity. Qed.

(** The same failure one probe earlier is absorbed, as the claim says. *)
Example reconciliation_second_probe_failure_is_absorbed :
  run (loopVideoToMatchAudio "video.mp4" "audio.mp3" "job") (Scenario.probe_fails_at 1) 0 =
    ([Ffprobe "audio.mp3"; Ffprobe "video.mp4"], inr "video.mp4").
Proof. reflexivity. Qed.

End Reconciler.

(** ** The stage adapters and their fallbacks *)

Lemma run_createSilentAudio env t jobId :
  let command := Exec (SilentAudio 30 (audioFile env jobId)) in
  run (createSilentAudio jobId) env t =
    ([command], and_return (answer env t command) (audioFile env jobId)).
Proof. run_unfold createSilentAudio. destruct_answer; reflexivity. Qed.

Lemma run_createPlaceholderVideo env t prompt jobId :
  let command :=
    Exec (PlaceholderVideo (placeholderDuration prompt) (placeholderText prompt)
            (clipFile env jobId prompt)) in
  run (createPlaceholderVideo prompt jobId) env t =
    ([command], and_return (answer env t command) (clipFile env jobId prompt)).
Proof. run_unfold createPlaceholderVideo. destruct_answer; reflexivity. Qed.

Ltac run_fallback :=
  match goal with
  | |- context [createSilentAudio ?j ?env ?t] =>
      change (createSilentAudio j env t) with (run (createSilentAudio j) env t);
      rewrite run_createSilentAudio
  | |- context [createPlaceholderVideo ?p ?j ?env ?t] =>
      change (createPlaceholderVideo p j env t) with (run (createPlaceholderVideo p j) env t);
      rewrite run_createPlaceholderVideo
  end; run_simpl.

Section Fallbacks.

(** What [generateAudio] can end with: the audio path, or the error of
    the silent-audio command. *)
Lemma generateAudio_outcome env t script jobId :
  exists tr r,
    run (generateAudio script jobId) env t = (tr, r) /\
    (r = inr (audioFile env jobId) \/
     exists t' err,
       answer env t' (Exec (SilentAudio 30 (audioFile env jobId))) = inl err /\
       r = inl err).
Proof.
  run_unfold generateAudio.
  repeat (destruct_answer; try run_fallback); cbn [and_return]; eauto 8.
Qed.


(** What one clip can end with: the clip path, or the error of the
    placeholder command. *)
Lemma generateSingleVideo_outcome env t prompt jobId :
  exists tr r,
    run (generateSingleVideo prompt jobId) env t = (tr, r) /\
    (r = inr (clipFile env jobId prompt) \/
     exists t' err,
       answer env t'
         (Exec (PlaceholderVideo (placeholderDuration prompt)
                  (placeholderText prompt) (clipFile env jobId prompt))) = inl err /\
       r = inl err).
Proof.
  run_unfold generateSingleVideo. destruct (hfApiKey env); cbv iota; cbn [negb].
  - repeat (destruct_answer; try run_fallback); cbn [and_return]; eauto 8.
  - run_fallback. destruct_answer; cbn [and_return]; eauto 8.
Qed.


End Fallbacks.

(** ** The script stage *)

Section ScriptStage.

Lemma generateScript_unconfigured env t prompt jobId :
  genAI env = false ->
  run (generateScript prompt jobId) env t =
    ([SaveToDebug (jobId +:+ "_script.json")],
     and_return (answer env t (SaveToDebug (jobId +:+ "_script.json")))
       (ScriptData_to_js (createFallbackScript prompt))).
Proof.
  intros Hkey. run_unfold generateScript. rewrite Hkey. cbn [negb]. cbv iota.
  destruct_answer; reflexivity.
Qed.

(** With the client configured the stage never raises, and it returns
    the template unless the call, the validation and the debug copy all
    succeeded. *)
Lemma generateScript_outcome env t prompt jobId :
  genAI env = true ->
  exists tr data,
    run (generateScript prompt jobId) env t = (tr, inr data) /\
    (data = ScriptData_to_js (createFallbackScript prompt) \/
     exists text,
       answer env t (GenerateContent prompt) = inr text /\
       validateScriptData (parsed_or_fallback env prompt text) = inr data /\
       is_ok (answer env (1 + t)%nat (SaveToDebug (jobId +:+ "_script.json"))) = true).
Proof.
  intros Hkey. cbn [Nat.add].
  run_unfold generateScript. rewrite Hkey. cbn [negb]. cbv iota.
  destruct_answer; [eauto|].
  fold (parsed_or_fallback env prompt x).
  destruct (validateScriptData (parsed_or_fallback env prompt x)) as [e|data] eqn:Hval;
    run_simpl; [eauto|].
  destruct_answer; [eauto|].
  do 2 eexists. split; [reflexivity|]. right. exists x. auto.
Qed.



Lemma validateScriptData_returns_objects (data data' : jsval) :
  validateScriptData data = inr data' -> Json.is_object data = true.
Proof. destruct data; try reflexivity; discriminate. Qed.

(** Whatever [generateScript] hands downstream has at least one visual
    cue and at least one subtitle cue. *)
Lemma generateScript_cues_nonempty env t prompt jobId tr data :
  run (generateScript prompt jobId) env t = (tr, inr data) ->
  Json.is_nonempty_array (Json.prop data "visual_prompts") = true /\
  Json.is_nonempty_array (Json.prop data "timestamps") = true.
Proof.
  intros Hrun.
  assert (Hfb : forall d, d = ScriptData_to_js (createFallbackScript prompt) ->
    Json.is_nonempty_array (Json.prop d "visual_prompts") = true /\
    Json.is_nonempty_array (Json.prop d "timestamps") = true).
  { intros d ->. split; reflexivity. }
  destruct (genAI env) eqn:Hkey.
  - destruct (generateScript_outcome env t prompt jobId Hkey)
      as (tr' & data' & Hrun' & [Heq | (text & _ & Hval & _)]);
      rewrite Hrun' in Hrun; injection Hrun as _ <-.
    + now apply Hfb.
    + pose proof (validateScriptData_returns_objects _ _ Hval) as Hobj.
      destruct (validateScriptData_repairs _ Hobj) as [H _].
      destruct (H _ Hval) as (_ & _ & Hv & Hts). auto.
  - rewrite (generateScript_unconfigured _ _ _ _ Hkey) in Hrun.
    destruct (answer env t (SaveToDebug _)); cbn in Hrun; [discriminate|].
    injection Hrun as _ <-. now apply Hfb.
Qed.

(** C10, as amended.  For every object returned by the external script
    capability: whenever validation returns, it returns an object whose
    [script] is truthy and whose [visual_prompts] and [timestamps] are
    non-empty arrays, defaults standing in for a missing or empty field;
    and when the [script] field of the input is missing, falsy or a
    string, validation does return, and the [script] of the result is a
    non-empty string.  (A truthy [script] that is not a string is kept
    as it is.)  So whatever the script stage hands downstream has at
    least one visual cue and at least one subtitle cue. *)
Theorem validateScriptData_ensures (data : jsval) env t prompt jobId :
  Json.is_object data = true ->
  (forall data',
      validateScriptData data = inr data' ->
      Json.is_object data' = true /\
      Json.truthy (Json.prop data' "script") = true /\
      Json.is_nonempty_array (Json.prop data' "visual_prompts") = true /\
      Json.is_nonempty_array (Json.prop data' "timestamps") = true) /\
  ((Json.truthy (Json.prop data "script") = true ->
    exists s, Json.prop data "script" = Some (JStr s)) ->
   exists data',
      validateScriptData data = inr data' /\
      Json.is_nonempty_string (Json.prop data' "script") = true) /\
  (forall tr handed,
      run (generateScript prompt jobId) env t = (tr, inr handed) ->
      Json.is_nonempty_array (Json.prop handed "visual_prompts") = true /\
      Json.is_nonempty_array (Json.prop handed "timestamps") = true).
Proof.
  intros Hobj. destruct (validateScriptData_repairs data Hobj) as [Hret Hstr].
  split; [exact Hret|]. split; [exact Hstr|].
  intros tr handed. apply generateScript_cues_nonempty.
Qed.

Lemma validateScriptData_ensures_witness :
  Json.is_object (JObject ∅) = true /\
  exists data',
    validateScriptData (JObject ∅) = inr data' /\
    Json.is_nonempty_string (Json.prop data' "script") = true.
Proof.
  split; [reflexivity|].
  destruct (validateScriptData_ensures (JObject ∅) Scenario.healthy 0 "space exploration"
              "job" eq_refl) as (_ & H & _).
  apply H. intros Ht. discriminate Ht.
Defined.

End ScriptStage.

(** ** The adapter contract *)

Section AdapterContract.




End AdapterContract.

(** ** The clip stage *)

Section ClipStage.


Lemma clipFor_total env t prompt jobId :
  (forall t' duration text outputPath,
     is_ok (answer env t' (Exec (PlaceholderVideo duration text outputPath))) = true) ->
  exists tr, run (clipFor prompt jobId) env t = (tr, inr (clipFile env jobId prompt)).
Proof.
  intros Hok. unfold clipFor. run_simpl.
  destruct (generateSingleVideo_outcome env t prompt jobId) as (tr1 & r1 & Hrun & Hr).
  unfold run in Hrun. rewrite Hrun.
  destruct Hr as [-> | (t' & err & Herr & ->)]; [eauto|].
  specialize (Hok t' (placeholderDuration prompt) (placeholderText prompt)
                (clipFile env jobId prompt)).
  rewrite Herr in Hok. discriminate.
Qed.


Lemma generateVideos_from_total env jobId visualPrompts :
  (forall t' duration text outputPath,
     is_ok (answer env t' (Exec (PlaceholderVideo duration text outputPath))) = true) ->
  forall videoPaths t,
    exists tr, run (generateVideos_from videoPaths visualPrompts jobId) env t =
                 (tr, inr (videoPaths ++ map (clipFile env jobId) visualPrompts)).
Proof.
  intros Hok. induction visualPrompts as [|prompt rest IH]; intros videoPaths t.
  - exists []. cbn. now rewrite app_nil_r.
  - cbn [generateVideos_from]. fold (clipFor prompt jobId). rewrite run_bind.
    destruct (clipFor_total env t prompt jobId Hok) as (tr1 & ->).
    destruct (IH (videoPaths ++ [clipFile env jobId prompt]) (length tr1 + t)%nat)
      as (tr2 & ->).
    exists (tr1 ++ tr2). cbn [map]. rewrite <- app_assoc. reflexivity.
Qed.




End ClipStage.

(** ** The publish stage *)

Section Publisher.

(** C8.  For every publish invocation with both platforms requested:
    the stage never raises; the TikTok upload is attempted whatever
    became of the YouTube upload; and the returned mapping holds, for
    each platform, exactly the URL of its successful upload: the key of
    a platform whose upload failed is absent, the URL of the other one
    is present. *)
Theorem uploadToSocial_platforms_independent
    env t videoPath title description tags tr_youtube r_youtube tr_tiktok r_tiktok :
  run (uploadToYouTube videoPath title description tags) env t = (tr_youtube, r_youtube) ->
  run (uploadToTikTok videoPath title description) env (length tr_youtube + t)%nat
    = (tr_tiktok, r_tiktok) ->
  exists urls : gmap string string,
    run (uploadToSocial videoPath title description tags true true) env t =
      (tr_youtube ++ tr_tiktok, inr urls) /\
    urls !! "youtube" = ok_value r_youtube /\
    urls !! "tiktok" = ok_value r_tiktok /\
    (forall platform, platform <> "youtube" -> platform <> "tiktok" -> urls !! platform = None).
Proof.
  unfold run. intros Hy Hk. unfold uploadToSocial. run_simpl. rewrite Hy.
  destruct r_youtube as [e|url]; run_simpl; rewrite ?app_nil_r, Hk;
    destruct r_tiktok as [e'|url']; run_simpl; rewrite ?app_nil_r;
    eexists; (split; [reflexivity|]); cbn [ok_value];
    repeat split; intros; simplify_map_eq; reflexivity.
Qed.

(** YouTube is not configured and TikTok is: the job goes on and the
    TikTok URL is returned alone. *)
Lemma uploadToSocial_platforms_independent_witness :
  (run (uploadToYouTube "out.mp4" "Title" "About" ["AI"]) Scenario.tiktok_only 0 =
     ([], inl "YouTube client not initialized. Please configure YouTube credentials.") /\
   run (uploadToTikTok "out.mp4" "Title" "About") Scenario.tiktok_only 0 =
     ([], inr "https://tiktok.com/@user/video/placeholder")) /\
  exists urls : gmap string string,
    run (uploadToSocial "out.mp4" "Title" "About" ["AI"] true true) Scenario.tiktok_only 0 =
      ([], inr urls) /\
    urls !! "youtube" = None /\
    urls !! "tiktok" = Some "https://tiktok.com/@user/video/placeholder".
Proof.
  split; [split; reflexivity|].
  destruct (uploadToSocial_platforms_independent Scenario.tiktok_only 0
              "out.mp4" "Title" "About" ["AI"] _ _ _ _ eq_refl eq_refl)
    as (urls & Hrun & Hy & Hk & _).
  exists urls. auto.
Defined.

End Publisher.

(** ** The orchestrator *)

Lemma progress_of_stage (stage : list Request) (tr : list Event) :
  progress_of (map External stage ++ tr) = progress_of tr.
Proof. induction stage as [|r stage IH]; [reflexivity|exact IH]. Qed.

Lemma progress_of_report (n : Z) (tr : list Event) :
  progress_of (Progress n :: tr) = n :: progress_of tr.
Proof. reflexivity. Qed.

Section Orchestrator.

Context {SD : Type}.

Ltac job_simpl :=
  cbv beta iota delta
    [run mbind M_bind mret M_ret throw try_catch progress lift];
  cbn [length Nat.add app].

(** C2.  For every job that completes successfully with no upload
    destination requested, the progress reports are exactly
    10, 25, 50, 75, 90, 100 in this order, increasing; 25, 50 and 75 are
    reported right after the script, media and assembly stage have
    returned; and the [uploadUrls] of the result is the empty mapping. *)
Theorem handleVideoGeneration_progress
    (services : Services SD) (data : VideoGenerationJobData) env t tr result :
  Js.truthy_obool (uploadToYoutube data) = false ->
  Js.truthy_obool (uploadToTiktok data) = false ->
  run (handleVideoGeneration services data) env t = (tr, inr result) ->
  progress_of tr = [10; 25; 50; 75; 90; 100] /\
  Sorted Z.lt (progress_of tr) /\
  uploadUrls result = ∅ /\
  exists t1 tr1 t2 tr2 mediaFiles t3 tr3,
    run (scriptService_generateScript services (prompt data) (jobId data)) env t1
      = (tr1, inr (scriptData result)) /\
    run (mediaService_generateMedia services (scriptData result) (jobId data)) env t2
      = (tr2, inr mediaFiles) /\
    run (editorService_assembleVideo services mediaFiles (jobId data)) env t3
      = (tr3, inr (finalVideoPath result)) /\
    tr = [Progress 10] ++ map External tr1 ++
         [Progress 25] ++ map External tr2 ++
         [Progress 50] ++ map External tr3 ++
         [Progress 75; Progress 90; Progress 100].
Proof.
  intros Hy Hk. unfold handleVideoGeneration. rewrite Hy, Hk. cbn [orb]. job_simpl.
  destruct (progress_answer env t 10) as [?|[]]; job_simpl; [intros H; discriminate H|].
  destruct (scriptService_generateScript services _ _ env _) as [tr1 [?|script_]] eqn:H1;
    job_simpl; [intros H; discriminate H|].
  destruct (progress_answer env _ 25) as [?|[]]; job_simpl; [intros H; discriminate H|].
  destruct (mediaService_generateMedia services _ _ env _) as [tr2 [?|media]] eqn:H2;
    job_simpl; [intros H; discriminate H|].
  destruct (progress_answer env _ 50) as [?|[]]; job_simpl; [intros H; discriminate H|].
  destruct (editorService_assembleVideo services _ _ env _) as [tr3 [?|final]] eqn:H3;
    job_simpl; [intros H; discriminate H|].
  destruct (progress_answer env _ 75) as [?|[]]; job_simpl; [intros H; discriminate H|].
  destruct (progress_answer env _ 90) as [?|[]]; job_simpl; [intros H; discriminate H|].
  destruct (progress_answer env _ 100) as [?|[]]; job_simpl; [intros H; discriminate H|].
  intros [= <- <-]. cbn [uploadUrls scriptData finalVideoPath].
  assert (Hprogress :
    progress_of (Progress 10 :: map External tr1 ++ Progress 25 :: map External tr2 ++
                 Progress 50 :: map External tr3 ++ [Progress 75; Progress 90; Progress 100])
    = [10; 25; 50; 75; 90; 100]).
  { rewrite !progress_of_report, !progress_of_stage, !progress_of_report,
      !progress_of_stage, !progress_of_report, !progress_of_stage. reflexivity. }
  rewrite Hprogress.
  split; [reflexivity|].
  split; [repeat constructor|].
  split; [reflexivity|].
  do 7 eexists. split; [exact H1|]. split; [exact H2|]. split; [exact H3|]. reflexivity.
Qed.

End Orchestrator.

(** The job of the processor's unit tests, with stub services. *)
Lemma handleVideoGeneration_progress_witness :
  (Js.truthy_obool (uploadToYoutube Scenario.mockJob) = false /\
   Js.truthy_obool (uploadToTiktok Scenario.mockJob) = false) /\
  progress_of (fst (run (handleVideoGeneration Scenario.mockServices Scenario.mockJob)
                        Scenario.healthy 0))
    = [10; 25; 50; 75; 90; 100].
Proof.
  split; [split; reflexivity|].
  refine (proj1 (handleVideoGeneration_progress Scenario.mockServices Scenario.mockJob
                   Scenario.healthy 0 _ _ eq_refl eq_refl _)).
  reflexivity.
Defined.

(** * Further properties of the code *)

(** ** EditorService: looping and assembly *)

Section LoopCover.

Local Open Scope Q_scope.



End LoopCover.

Section Assembly.

(** The three steps of [assembleVideo], one after the other. *)
Lemma run_assembleVideo env t mediaFiles jobId :
  let concat := FfmpegConcat (videoPaths mediaFiles) (concatenatedFile env jobId) in
  run (assembleVideo mediaFiles jobId) env t =
    match answer env t concat with
    | inl err => ([concat], inl err)
    | inr _ =>
        match run (loopVideoToMatchAudio (concatenatedFile env jobId)
                     (audioPath mediaFiles) jobId) env (S t) with
        | (tr, inl err) => (concat :: tr, inl err)
        | (tr, inr video) =>
            (concat :: tr ++ [muxRequest env video mediaFiles jobId],
             and_return (answer env (S (length tr + t)) (muxRequest env video mediaFiles jobId))
               (outputFile env jobId))
        end
    end.
Proof.
  intros concat. subst concat. unfold assembleVideo, concatenateVideos, addAudioAndSubtitles.
  run_simpl. unfold concatenatedFile.
  destruct_answer; [reflexivity|].
  destruct (loopVideoToMatchAudio _ _ _ env (S t)) as [tr [err|video]]; run_simpl;
    [rewrite app_nil_r; reflexivity|].
  rewrite Nat.add_succ_r. unfold muxRequest, outputFile.
  destruct_answer; rewrite ?app_nil_r; reflexivity.
Qed.


(** X2.  A failure of the concatenation is fatal and ends the assembly
    at once: the error is raised unchanged, and neither a probe nor the
    mux is started. *)
Theorem assembleVideo_concat_failure_is_fatal env t mediaFiles jobId err :
  answer env t (FfmpegConcat (videoPaths mediaFiles) (concatenatedFile env jobId)) = inl err ->
  run (assembleVideo mediaFiles jobId) env t =
    ([FfmpegConcat (videoPaths mediaFiles) (concatenatedFile env jobId)], inl err).
Proof. intros Herr. rewrite run_assembleVideo, Herr. reflexivity. Qed.

Lemma assembleVideo_concat_failure_witness :
  answer Scenario.offline 0
    (FfmpegConcat ["clip_0.mp4"] (concatenatedFile Scenario.offline "job")) =
    inl "not available" /\
  run (assembleVideo Scenario.mediaFiles "job") Scenario.offline 0 =
    ([FfmpegConcat ["clip_0.mp4"] "./temp/job_concatenated.mp4"], inl "not available").
Proof.
  split; [reflexivity|].
  apply (assembleVideo_concat_failure_is_fatal Scenario.offline 0 Scenario.mediaFiles "job").
  reflexivity.
Defined.

(** X3.  When the narration cannot be probed the assembly goes on with
    the concatenated video as it is: the mux step gets the concatenated
    file, no trim and no loop is run, and the job's output path is
    returned when the mux succeeds. *)
Theorem assembleVideo_unprobed_audio_muxes_concatenation env t mediaFiles jobId ok err :
  let concat := FfmpegConcat (videoPaths mediaFiles) (concatenatedFile env jobId) in
  let mux := muxRequest env (concatenatedFile env jobId) mediaFiles jobId in
  answer env t concat = inr ok ->
  answer env (1 + t)%nat (Ffprobe (audioPath mediaFiles)) = inl err ->
  run (assembleVideo mediaFiles jobId) env t =
    ([concat; Ffprobe (audioPath mediaFiles); mux],
     and_return (answer env (2 + t)%nat mux) (outputFile env jobId)).
Proof.
  intros concat mux Hconcat Hprobe. subst concat mux. cbn [Nat.add] in *.
  rewrite run_assembleVideo, Hconcat.
  rewrite (loopVideoToMatchAudio_audio_probe_fails _ _ _ _ _ _ Hprobe). reflexivity.
Qed.

Lemma assembleVideo_unprobed_audio_witness :
  (answer (Scenario.probe_fails_at 1) 0
     (FfmpegConcat ["clip_0.mp4"] (concatenatedFile (Scenario.probe_fails_at 1) "job")) = inr tt /\
   answer (Scenario.probe_fails_at 1) 1 (Ffprobe "audio.mp3") =
     inl "ffprobe exited with code 1") /\
  run (assembleVideo Scenario.mediaFiles "job") (Scenario.probe_fails_at 1) 0 =
    ([FfmpegConcat ["clip_0.mp4"] "./temp/job_concatenated.mp4";
      Ffprobe "audio.mp3";
      FfmpegMux "./temp/job_concatenated.mp4" "audio.mp3" "-vf subtitles='subtitles.srt'"
        "./temp/job_output.mp4"],
     inr "./temp/job_output.mp4").
Proof.
  split; [split; reflexivity|].
  apply (assembleVideo_unprobed_audio_muxes_concatenation (Scenario.probe_fails_at 1) 0
           Scenario.mediaFiles "job" tt "ffprobe exited with code 1"); reflexivity.
Defined.



(** X5.  A failure of the mux is fatal: once the reconciliation has
    produced a video, the error of the mux is raised unchanged and no
    output path is returned. *)
Theorem assembleVideo_mux_failure_is_fatal env t mediaFiles jobId ok tr video err :
  answer env t (FfmpegConcat (videoPaths mediaFiles) (concatenatedFile env jobId)) = inr ok ->
  run (loopVideoToMatchAudio (concatenatedFile env jobId) (audioPath mediaFiles) jobId)
      env (1 + t)%nat = (tr, inr video) ->
  answer env (1 + (length tr + t))%nat (muxRequest env video mediaFiles jobId) = inl err ->
  run (assembleVideo mediaFiles jobId) env t =
    (FfmpegConcat (videoPaths mediaFiles) (concatenatedFile env jobId)
       :: tr ++ [muxRequest env video mediaFiles jobId],
     inl err).
Proof.
  intros Hconcat Hrec Hmux. cbn [Nat.add] in *.
  rewrite run_assembleVideo, Hconcat, Hrec, Hmux. reflexivity.
Qed.

End Assembly.

Lemma assembleVideo_mux_failure_witness :
  (answer Scenario.mux_fails 0
     (FfmpegConcat ["clip_0.mp4"] (concatenatedFile Scenario.mux_fails "job")) = inr tt /\
   run (loopVideoToMatchAudio (concatenatedFile Scenario.mux_fails "job") "audio.mp3" "job")
       Scenario.mux_fails 1 =
     ([Ffprobe "audio.mp3"; Ffprobe "./temp/job_concatenated.mp4";
       FfmpegTrim "./temp/job_concatenated.mp4" 30 "./temp/job_trimmed.mp4"],
      inr "./temp/job_trimmed.mp4")) /\
  snd (run (assembleVideo Scenario.mediaFiles "job") Scenario.mux_fails 0) =
    inl "ffmpeg exited with code 1".
Proof.
  split; [split; reflexivity|].
  rewrite (assembleVideo_mux_failure_is_fatal Scenario.mux_fails 0 Scenario.mediaFiles "job"
             tt _ _ "ffmpeg exited with code 1" eq_refl eq_refl eq_refl).
  reflexivity.
Defined.

(** ** MediaService: subtitles, media generation, placeholders *)

Section Subtitles.

Lemma srtContent_from_app (first : nat) (cues rest : list TimestampSegment) :
  srtContent_from first (cues ++ rest) =
    srtContent_from first cues +:+ srtContent_from (first + length cues) rest.
Proof.
  revert first. induction cues as [|cue cues IH]; intros first.
  - cbn. now rewrite Nat.add_0_r.
  - cbn [app srtContent_from length]. rewrite IH, append_assoc.
    now rewrite Nat.add_succ_r.
Qed.

Lemma run_generateSubtitles env t segments jobId :
  let write := WriteFile (subtitleFile env jobId) (srtContent_from 0 segments) in
  run (generateSubtitles segments jobId) env t =
    ([write], and_return (answer env t write) (subtitleFile env jobId)).
Proof. run_unfold generateSubtitles. unfold subtitleFile. destruct_answer; reflexivity. Qed.

(** X6.  The subtitle file is written once, and the cue at position k
    (counted from 0) is serialised in it, after the blocks of the cues
    before it and before those of the cues after it, as the block:
    the number k + 1, the line [start --> end] in timestamp format, the
    text, and an empty line. *)
Theorem generateSubtitles_block_of_cue env t segments jobId k cue :
  segments !! k = Some cue ->
  exists before after,
    fst (run (generateSubtitles segments jobId) env t) =
      [WriteFile (subtitleFile env jobId)
         (before +:+
          (Js.String_of_Z (Z.of_nat k + 1) +:+ Js.newline +:+
           formatSrtTime (ts_start cue) +:+ " --> " +:+ formatSrtTime (ts_end cue)
             +:+ Js.newline +:+
           ts_text cue +:+ Js.newline +:+ Js.newline) +:+
          after)] /\
    before = srtContent_from 0 (take k segments) /\
    after = srtContent_from (S k) (drop (S k) segments).
Proof.
  intros Hk. exists (srtContent_from 0 (take k segments)),
                    (srtContent_from (S k) (drop (S k) segments)).
  split; [|split; reflexivity].
  rewrite run_generateSubtitles. cbn [fst]. do 2 f_equal.
  rewrite <- (take_drop_middle segments k cue Hk) at 1.
  rewrite srtContent_from_app. cbn [srtContent_from Nat.add].
  rewrite length_take_le by (apply Nat.lt_le_incl, (lookup_lt_Some _ _ _ Hk)).
  unfold srtBlock. rewrite !append_assoc. reflexivity.
Qed.

Lemma generateSubtitles_block_witness :
  Scenario.two_cues !! 1%nat = Some {| ts_start := 3 # 2; ts_end := 4; ts_text := "world" |} /\
  exists before after,
    fst (run (generateSubtitles Scenario.two_cues "job") Scenario.healthy 0) =
      [WriteFile "./temp/job_subtitles.srt"
         (before +:+
          ("2" +:+ Js.newline +:+ "00:00:01,500 --> 00:00:04,000" +:+ Js.newline +:+
           "world" +:+ Js.newline +:+ Js.newline) +:+ after)].
Proof.
  split; [reflexivity|].
  destruct (generateSubtitles_block_of_cue Scenario.healthy 0 Scenario.two_cues "job" 1
              {| ts_start := 3 # 2; ts_end := 4; ts_text := "world" |} eq_refl)
    as (before & after & Hrun & _ & _).
  exists before, after. exact Hrun.
Defined.

End Subtitles.

Section MediaGeneration.

Lemma generateAudio_total env t script jobId :
  (forall t' outputPath, is_ok (answer env t' (Exec (SilentAudio 30 outputPath))) = true) ->
  exists tr, run (generateAudio script jobId) env t = (tr, inr (audioFile env jobId)).
Proof.
  intros Hok.
  destruct (generateAudio_outcome env t script jobId) as (tr & r & Hrun & Hr).
  exists tr. rewrite Hrun. destruct Hr as [-> | (t' & err & Herr & ->)]; [reflexivity|].
  specialize (Hok t' (audioFile env jobId)). rewrite Herr in Hok. discriminate.
Qed.

Lemma run_generateMedia env t scriptData jobId :
  run (generateMedia scriptData jobId) env t =
    match run (generateAudio (script scriptData) jobId) env t with
    | (tr1, inl err) => (tr1, inl err)
    | (tr1, inr audio) =>
        match run (generateVideos (visual_prompts scriptData) jobId) env (length tr1 + t) with
        | (tr2, inl err) => (tr1 ++ tr2, inl err)
        | (tr2, inr videos) =>
            let write := WriteFile (subtitleFile env jobId)
                           (srtContent_from 0 (timestamps scriptData)) in
            (tr1 ++ tr2 ++ [write],
             and_return (answer env (length tr2 + (length tr1 + t)) write)
               {| audioPath := audio; videoPaths := videos;
                  subtitlePath := subtitleFile env jobId |})
        end
    end.
Proof.
  unfold generateMedia. rewrite run_bind.
  destruct (run (generateAudio _ _) env t) as [tr1 [err|audio]]; [reflexivity|].
  rewrite run_bind.
  destruct (run (generateVideos _ _) env _) as [tr2 [err|videos]]; [reflexivity|].
  rewrite run_bind, run_generateSubtitles. cbv zeta.
  destruct (answer env _ (WriteFile _ _)) as [err|[]]; cbn [and_return];
    rewrite ?run_ret, ?app_nil_r; reflexivity.
Qed.

(** X7.  When the fallback commands work and the subtitle file can be
    written, the media stage always returns, whatever the external
    services do, and what it returns depends on the job id and the cues
    alone: the audio file of the job, one clip file per visual cue in
    cue order, and the subtitle file of the job. *)
Theorem generateMedia_returns_job_files env t scriptData jobId :
  (forall t' outputPath, is_ok (answer env t' (Exec (SilentAudio 30 outputPath))) = true) ->
  (forall t' duration text outputPath,
     is_ok (answer env t' (Exec (PlaceholderVideo duration text outputPath))) = true) ->
  (forall t' path content, is_ok (answer env t' (WriteFile path content)) = true) ->
  exists tr,
    run (generateMedia scriptData jobId) env t =
      (tr, inr {| audioPath := audioFile env jobId;
                  videoPaths := map (clipFile env jobId) (visual_prompts scriptData);
                  subtitlePath := subtitleFile env jobId |}).
Proof.
  intros Hsilent Hplaceholder Hwrite. rewrite run_generateMedia.
  destruct (generateAudio_total env t (script scriptData) jobId Hsilent) as (tr1 & ->).
  destruct (generateVideos_from_total env jobId (visual_prompts scriptData) Hplaceholder
              [] (length tr1 + t)%nat) as (tr2 & Hvideos).
  unfold generateVideos. rewrite Hvideos. cbn [app]. cbv zeta.
  specialize (Hwrite (length tr2 + (length tr1 + t))%nat (subtitleFile env jobId)
                (srtContent_from 0 (timestamps scriptData))).
  destruct (answer env _ (WriteFile _ _)) as [err|[]]; [discriminate|].
  eexists. reflexivity.
Qed.

(** Nothing configured: a silent track, three placeholders, the subtitles. *)
Lemma generateMedia_returns_job_files_witness :
  ((forall t' outputPath,
      is_ok (answer Scenario.healthy t' (Exec (SilentAudio 30 outputPath))) = true) /\
   (forall t' duration text outputPath,
      is_ok (answer Scenario.healthy t' (Exec (PlaceholderVideo duration text outputPath)))
        = true) /\
   (forall t' path content,
      is_ok (answer Scenario.healthy t' (WriteFile path content)) = true)) /\
  exists tr,
    run (generateMedia (createFallbackScript "space exploration") "job") Scenario.healthy 0 =
      (tr, inr {| audioPath := "./temp/job_audio.mp3";
                  videoPaths := ["./temp/job_clip_0.mp4"; "./temp/job_clip_1.mp4";
                                 "./temp/job_clip_2.mp4"];
                  subtitlePath := "./temp/job_subtitles.srt" |}).
Proof.
  split; [repeat split|].
  apply (generateMedia_returns_job_files Scenario.healthy 0
           (createFallbackScript "space exploration") "job"); reflexivity.
Defined.

(** X8.  The subtitles have no fallback: when the subtitle file cannot
    be written, the media stage raises that error, although the audio
    and all clips were produced. *)
Theorem generateMedia_subtitle_failure_is_raised
    env t scriptData jobId tr1 audio tr2 videos err :
  run (generateAudio (script scriptData) jobId) env t = (tr1, inr audio) ->
  run (generateVideos (visual_prompts scriptData) jobId) env (length tr1 + t)%nat
    = (tr2, inr videos) ->
  answer env (length tr2 + (length tr1 + t))%nat
    (WriteFile (subtitleFile env jobId) (srtContent_from 0 (timestamps scriptData)))
    = inl err ->
  run (generateMedia scriptData jobId) env t =
    (tr1 ++ tr2 ++
     [WriteFile (subtitleFile env jobId) (srtContent_from 0 (timestamps scriptData))],
     inl err).
Proof.
  intros Haudio Hvideos Hwrite. rewrite run_generateMedia, Haudio, Hvideos. cbv zeta.
  rewrite Hwrite. reflexivity.
Qed.

End MediaGeneration.

Lemma generateMedia_subtitle_failure_witness :
  (fst (run (generateAudio "Hello" "job") Scenario.disk_full 0) =
     [Exec (EdgeTts "Hello" "./temp/job_audio.mp3");
      ReadFile "./temp/job_audio.mp3";
      SaveToDebug "job_audio_raw.mp3"] /\
   fst (run (generateVideos [Scenario.sunrise] "job") Scenario.disk_full 3) =
     [Exec (PlaceholderVideo 5 "A sunrise" "./temp/job_clip_0.mp4")]) /\
  snd (run (generateMedia
              {| script := "Hello"; visual_prompts := [Scenario.sunrise];
                 timestamps := Scenario.two_cues |} "job") Scenario.disk_full 0) =
    inl "ENOSPC: no space left on device".
Proof.
  split; [split; reflexivity|].
  rewrite (generateMedia_subtitle_failure_is_raised Scenario.disk_full 0
             {| script := "Hello"; visual_prompts := [Scenario.sunrise];
                timestamps := Scenario.two_cues |} "job" _ _ _ _
             "ENOSPC: no space left on device" eq_refl eq_refl eq_refl).
  reflexivity.
Defined.

Section Unconfigured.

(** X9.  Without a Gemini key the script stage makes no call to the
    service: its only external effect is the debug copy of the template.
    It returns the template when that copy is written, and raises the
    write error otherwise (this path has no catch). *)
Theorem generateScript_unconfigured_makes_no_call env t prompt jobId :
  genAI env = false ->
  fst (run (generateScript prompt jobId) env t) = [SaveToDebug (jobId +:+ "_script.json")] /\
  (forall ok,
     answer env t (SaveToDebug (jobId +:+ "_script.json")) = inr ok ->
     snd (run (generateScript prompt jobId) env t) =
       inr (ScriptData_to_js (createFallbackScript prompt))) /\
  (forall err,
     answer env t (SaveToDebug (jobId +:+ "_script.json")) = inl err ->
     snd (run (generateScript prompt jobId) env t) = inl err).
Proof.
  intros Hkey. rewrite (generateScript_unconfigured env t prompt jobId Hkey).
  split; [reflexivity|]. split; intros x Hx; cbn [snd]; rewrite Hx; reflexivity.
Qed.

Lemma generateScript_unconfigured_witness :
  genAI Scenario.offline = false /\
  run (generateScript "space exploration" "job") Scenario.offline 0 =
    ([SaveToDebug "job_script.json"], inl "not available").
Proof.
  split; [reflexivity|].
  destruct (generateScript_unconfigured_makes_no_call Scenario.offline 0
              "space exploration" "job" eq_refl) as (Htrace & _ & Herr).
  specialize (Herr "not available" eq_refl).
  destruct (run (generateScript "space exploration" "job") Scenario.offline 0) as [tr r].
  cbn [fst snd] in *. now subst.
Defined.

(** The placeholder command of a cue. *)
Lemma generateSingleVideo_unconfigured env t prompt jobId :
  hfApiKey env = false ->
  run (generateSingleVideo prompt jobId) env t =
    run (createPlaceholderVideo prompt jobId) env t.
Proof.
  intros Hkey. run_unfold generateSingleVideo. rewrite Hkey. cbn [negb]. cbv iota.
  destruct (createPlaceholderVideo prompt jobId env t). reflexivity.
Qed.

Lemma generateVideos_from_unconfigured env jobId visualPrompts :
  hfApiKey env = false ->
  (forall t' duration text outputPath,
     is_ok (answer env t' (Exec (PlaceholderVideo duration text outputPath))) = true) ->
  forall videoPaths t,
    run (generateVideos_from videoPaths visualPrompts jobId) env t =
      (map (fun cue => Exec (PlaceholderVideo (placeholderDuration cue) (placeholderText cue)
                               (clipFile env jobId cue))) visualPrompts,
       inr (videoPaths ++ map (clipFile env jobId) visualPrompts)).
Proof.
  intros Hkey Hok. induction visualPrompts as [|cue rest IH]; intros videoPaths t.
  - cbn. now rewrite app_nil_r.
  - cbn [generateVideos_from]. rewrite run_bind.
    assert (Hclip : run (try_catch (generateSingleVideo cue jobId)
                           (fun _ => createPlaceholderVideo cue jobId)) env t =
              ([Exec (PlaceholderVideo (placeholderDuration cue) (placeholderText cue)
                        (clipFile env jobId cue))],
               inr (clipFile env jobId cue))).
    { unfold run, try_catch.
      change (generateSingleVideo cue jobId env t)
        with (run (generateSingleVideo cue jobId) env t).
      rewrite (generateSingleVideo_unconfigured _ _ _ _ Hkey), run_createPlaceholderVideo.
      cbv zeta.
      specialize (Hok t (placeholderDuration cue) (placeholderText cue)
                    (clipFile env jobId cue)).
      destruct (answer env t _) as [err|[]]; [discriminate|reflexivity]. }
    rewrite Hclip, IH. cbn [length map app]. rewrite <- app_assoc. reflexivity.
Qed.

(** X10.  Without a Hugging Face key, and with a working placeholder
    renderer, the clip stage contacts no service: it runs exactly one
    placeholder rendering per visual cue, in cue order, each with the
    duration, the overlay text and the clip file of its cue. *)
Theorem generateVideos_unconfigured_renders_one_placeholder_per_cue
    env t (visualPrompts : list VisualPrompt) jobId :
  hfApiKey env = false ->
  (forall t' duration text outputPath,
     is_ok (answer env t' (Exec (PlaceholderVideo duration text outputPath))) = true) ->
  run (generateVideos visualPrompts jobId) env t =
    (map (fun cue => Exec (PlaceholderVideo (placeholderDuration cue) (placeholderText cue)
                             (clipFile env jobId cue))) visualPrompts,
     inr (map (clipFile env jobId) visualPrompts)).
Proof.
  intros Hkey Hok. unfold generateVideos.
  rewrite (generateVideos_from_unconfigured env jobId visualPrompts Hkey Hok). reflexivity.
Qed.

Lemma generateVideos_unconfigured_witness :
  (hfApiKey Scenario.healthy = false /\
   forall t' duration text outputPath,
     is_ok (answer Scenario.healthy t' (Exec (PlaceholderVideo duration text outputPath)))
       = true) /\
  fst (run (generateVideos (visual_prompts (createFallbackScript "rain")) "job")
         Scenario.healthy 0) =
    [Exec (PlaceholderVideo 10 "Cinematic scene showing rain" "./temp/job_clip_0.mp4");
     Exec (PlaceholderVideo 10 "Close-up details of rain" "./temp/job_clip_1.mp4");
     Exec (PlaceholderVideo 10 "Wide angle view of rain" "./temp/job_clip_2.mp4")].
Proof.
  split; [split; reflexivity|].
  rewrite (generateVideos_unconfigured_renders_one_placeholder_per_cue Scenario.healthy 0
             (visual_prompts (createFallbackScript "rain")) "job" eq_refl);
    reflexivity.
Defined.

End Unconfigured.

(** ** Text put into shell commands *)

Section CommandText.




Local Open Scope Q_scope.



End CommandText.

(** ** PublisherService *)

Section PublisherMore.

Lemma run_uploadToTikTok env t videoPath title description :
  run (uploadToTikTok videoPath title description) env t =
    ([], if Js.truthy_ostring (config_get env "TIKTOK_ACCESS_TOKEN")
         then inr "https://tiktok.com/@user/video/placeholder"
         else inl "TikTok access token not configured").
Proof.
  run_unfold uploadToTikTok.
  destruct (Js.truthy_ostring (config_get env "TIKTOK_ACCESS_TOKEN")); reflexivity.
Qed.

Lemma run_uploadToYouTube env t videoPath title description tags :
  run (uploadToYouTube videoPath title description tags) env t =
    if youtube env
    then ([YoutubeInsert videoPath title description tags],
          match answer env t (YoutubeInsert videoPath title description tags) with
          | inl err => inl err
          | inr videoId => inr ("https://www.youtube.com/watch?v=" +:+ videoId)
          end)
    else ([], inl "YouTube client not initialized. Please configure YouTube credentials.").
Proof.
  run_unfold uploadToYouTube. destruct (youtube env); cbn [negb]; cbv iota; [|reflexivity].
  destruct_answer; reflexivity.
Qed.

(** X13.  The TikTok upload is a placeholder: it never makes an external
    call, and with an access token configured it reports the fixed
    placeholder URL.  The YouTube upload makes no call without its
    credentials; with them it makes exactly one insert call, and the URL
    it reports is the watch URL of the id that the call returned. *)
Theorem uploads_calls_and_urls env t videoPath title description tags :
  fst (run (uploadToTikTok videoPath title description) env t) = [] /\
  (Js.truthy_ostring (config_get env "TIKTOK_ACCESS_TOKEN") = true ->
   snd (run (uploadToTikTok videoPath title description) env t) =
     inr "https://tiktok.com/@user/video/placeholder") /\
  (youtube env = false ->
   run (uploadToYouTube videoPath title description tags) env t =
     ([], inl "YouTube client not initialized. Please configure YouTube credentials.")) /\
  (youtube env = true ->
   fst (run (uploadToYouTube videoPath title description tags) env t) =
     [YoutubeInsert videoPath title description tags] /\
   forall videoId,
     answer env t (YoutubeInsert videoPath title description tags) = inr videoId ->
     snd (run (uploadToYouTube videoPath title description tags) env t) =
       inr ("https://www.youtube.com/watch?v=" +:+ videoId)).
Proof.
  rewrite run_uploadToTikTok, run_uploadToYouTube.
  split; [reflexivity|]. split; [intros ->; reflexivity|].
  split; [intros ->; reflexivity|].
  intros ->. split; [reflexivity|]. intros videoId Hid. cbn [snd]. rewrite Hid. reflexivity.
Qed.

Lemma uploads_calls_and_urls_witness :
  (Js.truthy_ostring (config_get Scenario.tiktok_only "TIKTOK_ACCESS_TOKEN") = true /\
   youtube Scenario.youtube_only = true) /\
  run (uploadToTikTok "out.mp4" "Title" "About") Scenario.tiktok_only 0 =
    ([], inr "https://tiktok.com/@user/video/placeholder") /\
  run (uploadToYouTube "out.mp4" "Title" "About" ["AI"]) Scenario.youtube_only 0 =
    ([YoutubeInsert "out.mp4" "Title" "About" ["AI"]],
     inr "https://www.youtube.com/watch?v=abc123").
Proof.
  split; [split; reflexivity|].
  destruct (uploads_calls_and_urls Scenario.tiktok_only 0 "out.mp4" "Title" "About" ["AI"])
    as (Ht & Hurl & _ & _).
  destruct (uploads_calls_and_urls Scenario.youtube_only 0 "out.mp4" "Title" "About" ["AI"])
    as (_ & _ & _ & Hy).
  destruct (Hy eq_refl) as (Hcall & Hid). specialize (Hid "abc123" eq_refl).
  specialize (Hurl eq_refl).
  split.
  - destruct (run (uploadToTikTok "out.mp4" "Title" "About") Scenario.tiktok_only 0).
    cbn [fst snd] in *. now subst.
  - destruct (run (uploadToYouTube "out.mp4" "Title" "About" ["AI"]) Scenario.youtube_only 0).
    cbn [fst snd] in *. now subst.
Defined.

(** The publish stage never raises, whatever is requested. *)
Lemma uploadToSocial_outcome env t videoPath title description tags
    (toYoutube toTiktok : bool) :
  exists tr (urls : gmap string string),
    run (uploadToSocial videoPath title description tags toYoutube toTiktok) env t
      = (tr, inr urls) /\
    (toYoutube = false -> urls !! "youtube" = None) /\
    (toTiktok = false -> urls !! "tiktok" = None) /\
    (forall platform, platform <> "youtube" -> platform <> "tiktok" ->
                      urls !! platform = None) /\
    (toYoutube = false -> tr = []) /\
    (tr = [] \/ tr = [YoutubeInsert videoPath title description tags]).
Proof.
  unfold uploadToSocial. run_simpl.
  destruct toYoutube.
  - change (uploadToYouTube videoPath title description tags env t)
      with (run (uploadToYouTube videoPath title description tags) env t).
    rewrite run_uploadToYouTube.
    destruct (youtube env); [destruct (answer env t _) as [err|videoId]|]; run_simpl;
      (destruct toTiktok;
       [ match goal with
         | |- context [uploadToTikTok ?v ?ti ?d ?e ?t'] =>
             change (uploadToTikTok v ti d e t') with (run (uploadToTikTok v ti d) e t');
             rewrite run_uploadToTikTok
         end;
         destruct (Js.truthy_ostring (config_get env "TIKTOK_ACCESS_TOKEN")); run_simpl
       | ]);
      do 2 eexists; (split; [reflexivity|]);
      repeat split; intros; try discriminate; simplify_map_eq; auto.
  - destruct toTiktok;
      [ match goal with
        | |- context [uploadToTikTok ?v ?ti ?d ?e ?t'] =>
            change (uploadToTikTok v ti d e t') with (run (uploadToTikTok v ti d) e t');
            rewrite run_uploadToTikTok
        end;
        destruct (Js.truthy_ostring (config_get env "TIKTOK_ACCESS_TOKEN")); run_simpl
      | ];
      do 2 eexists; (split; [reflexivity|]);
      repeat split; intros; try discriminate; simplify_map_eq; auto.
Qed.

(** X14.  Whatever is requested, the publish stage never raises; the
    mapping it returns never holds a URL for a platform that was not
    requested, nor any key besides the two platforms; and the only
    external call it can make is the YouTube insert, made only when the
    YouTube upload is requested. *)
Theorem uploadToSocial_only_what_was_requested env t videoPath title description tags
    (toYoutube toTiktok : bool) :
  exists tr (urls : gmap string string),
    run (uploadToSocial videoPath title description tags toYoutube toTiktok) env t
      = (tr, inr urls) /\
    (toYoutube = false -> urls !! "youtube" = None) /\
    (toTiktok = false -> urls !! "tiktok" = None) /\
    (forall platform, platform <> "youtube" -> platform <> "tiktok" ->
                      urls !! platform = None) /\
    (toYoutube = false -> tr = []) /\
    (tr = [] \/ tr = [YoutubeInsert videoPath title description tags]).
Proof. apply uploadToSocial_outcome. Qed.

End PublisherMore.

(** ** VideoGenerationProcessor *)

Lemma progress_of_stage_only (stage : list Request) :
  progress_of (map External stage) = [].
Proof. induction stage as [|r stage IH]; [reflexivity|exact IH]. Qed.

Ltac job_step :=
  cbv beta iota delta
    [run mbind M_bind mret M_ret throw try_catch progress lift];
  cbn [length Nat.add app].

Ltac progress_simpl :=
  rewrite ?app_nil_r;
  repeat (rewrite progress_of_report || rewrite progress_of_stage
          || rewrite progress_of_stage_only).

(** A run that stopped with an error: its reports are a prefix. *)
Ltac job_failed :=
  do 2 eexists; split; [reflexivity|]; right; do 2 eexists;
  split; [reflexivity|]; split; [reflexivity|]; progress_simpl;
  unfold checkpoints; by eexists.

Section OrchestratorMore.

Context {SD : Type}.

(** What the observers of any run see: all six checkpoints when the job
    succeeds, and the checkpoints reached so far when it fails. *)
Lemma handleVideoGeneration_outcome
    (services : Services SD) (data : VideoGenerationJobData) env t :
  exists tr r,
    run (handleVideoGeneration services data) env t = (tr, r) /\
    ((exists result,
        r = inr result /\ progress_of tr = checkpoints /\
        success result = true /\ result_jobId result = jobId data) \/
     (exists err reached,
        r = inl err /\ progress_of tr = reached /\ reached `prefix_of` checkpoints)).
Proof.
  unfold handleVideoGeneration. job_step.
  destruct (progress_answer env t 10) as [?|[]]; job_step;
    [job_failed|].
  destruct (scriptService_generateScript services _ _ env _) as [tr1 [?|script_]];
    job_step;
    [job_failed|].
  destruct (progress_answer env _ 25) as [?|[]]; job_step;
    [job_failed|].
  destruct (mediaService_generateMedia services _ _ env _) as [tr2 [?|media]];
    job_step;
    [job_failed|].
  destruct (progress_answer env _ 50) as [?|[]]; job_step;
    [job_failed|].
  destruct (editorService_assembleVideo services _ _ env _) as [tr3 [?|final]];
    job_step;
    [job_failed|].
  destruct (progress_answer env _ 75) as [?|[]]; job_step;
    [job_failed|].
  destruct (Js.truthy_obool (uploadToYoutube data) || Js.truthy_obool (uploadToTiktok data));
    job_step.
  - destruct (publisherService_uploadToSocial services _ _ _ _ _ _ env _)
      as [tr4 [?|urls]]; job_step;
      [job_failed|].
    destruct (progress_answer env _ 90) as [?|[]]; job_step;
      [job_failed|].
    destruct (progress_answer env _ 100) as [?|[]]; job_step;
      [job_failed|].
    do 2 eexists; split; [reflexivity|]. left. eexists. split; [reflexivity|].
    progress_simpl. auto.
  - destruct (progress_answer env _ 90) as [?|[]]; job_step;
      [job_failed|].
    destruct (progress_answer env _ 100) as [?|[]]; job_step;
      [job_failed|].
    do 2 eexists; split; [reflexivity|]. left. eexists. split; [reflexivity|].
    progress_simpl. auto.
Qed.

(** X15.  Every job that completes successfully, with or without
    uploads, has reported exactly 10, 25, 50, 75, 90, 100 in this order,
    and its result carries [success = true] and the id of the job. *)
Theorem handleVideoGeneration_success_reports_all_checkpoints
    (services : Services SD) (data : VideoGenerationJobData) env t tr result :
  run (handleVideoGeneration services data) env t = (tr, inr result) ->
  progress_of tr = [10; 25; 50; 75; 90; 100] /\
  success result = true /\
  result_jobId result = jobId data.
Proof.
  intros Hrun.
  destruct (handleVideoGeneration_outcome services data env t)
    as (tr' & r & Hrun' & [(result' & -> & Hp & Hs & Hj) | (err & reached & -> & _)]);
    rewrite Hrun' in Hrun; [|discriminate].
  injection Hrun as <- <-. auto.
Qed.

(** X16.  Whatever happens to a job, the progress values it reports
    are an initial part of 10, 25, 50, 75, 90, 100: progress never goes
    back, never repeats and never skips a checkpoint, also when a stage
    or a progress report fails. *)
Theorem handleVideoGeneration_progress_is_a_prefix
    (services : Services SD) (data : VideoGenerationJobData) env t :
  progress_of (fst (run (handleVideoGeneration services data) env t))
    `prefix_of` [10; 25; 50; 75; 90; 100].
Proof.
  destruct (handleVideoGeneration_outcome services data env t)
    as (tr & r & -> & [(result & _ & Hp & _) | (err & reached & _ & Hp & Hprefix)]);
    cbn [fst]; rewrite Hp; [reflexivity|exact Hprefix].
Qed.

(** X17.  When a job that asks for an upload completes, the publisher
    was called once, between the reports 75 and 90, with the assembled
    video, the title and the description of the request or, when they
    are missing or empty, the defaults made from the prompt, the tags,
    and the two flags; what the publisher returned is the [uploadUrls]
    of the result. *)
Theorem handleVideoGeneration_publishes_with_defaults
    (services : Services SD) (data : VideoGenerationJobData) env t tr result :
  Js.truthy_obool (uploadToYoutube data) || Js.truthy_obool (uploadToTiktok data) = true ->
  run (handleVideoGeneration services data) env t = (tr, inr result) ->
  exists before t4 tr4,
    run (publisherService_uploadToSocial services (finalVideoPath result)
           (Js.or_string (title data) ("AI Generated Video: " +:+ prompt data))
           (Js.or_string (description data)
              ("This video was automatically generated about: " +:+ prompt data))
           (videoTags (tags data))
           (Js.truthy_obool (uploadToYoutube data))
           (Js.truthy_obool (uploadToTiktok data))) env t4
      = (tr4, inr (uploadUrls result)) /\
    tr = before ++ [Progress 75] ++ map External tr4 ++ [Progress 90; Progress 100] /\
    progress_of before = [10; 25; 50].
Proof.
  intros Hflags. unfold handleVideoGeneration. rewrite Hflags, !orb_false_r. job_step.
  destruct (progress_answer env t 10) as [?|[]]; job_step; [intros H; discriminate H|].
  destruct (scriptService_generateScript services _ _ env _) as [tr1 [?|script_]];
    job_step; [intros H; discriminate H|].
  destruct (progress_answer env _ 25) as [?|[]]; job_step; [intros H; discriminate H|].
  destruct (mediaService_generateMedia services _ _ env _) as [tr2 [?|media]];
    job_step; [intros H; discriminate H|].
  destruct (progress_answer env _ 50) as [?|[]]; job_step; [intros H; discriminate H|].
  destruct (editorService_assembleVideo services _ _ env _) as [tr3 [?|final]];
    job_step; [intros H; discriminate H|].
  destruct (progress_answer env _ 75) as [?|[]]; job_step; [intros H; discriminate H|].
  destruct (publisherService_uploadToSocial services _ _ _ _ _ _ env _)
    as [tr4 [?|urls]] eqn:Hpublish; job_step; [intros H; discriminate H|].
  destruct (progress_answer env _ 90) as [?|[]]; job_step; [intros H; discriminate H|].
  destruct (progress_answer env _ 100) as [?|[]]; job_step; [intros H; discriminate H|].
  intros [= <- <-]. cbn [uploadUrls finalVideoPath].
  eexists (Progress 10 :: map External tr1 ++ Progress 25 :: map External tr2 ++
           Progress 50 :: map External tr3), _, tr4.
  split; [exact Hpublish|]. split.
  - cbn [app]. rewrite <- !app_assoc. cbn [app]. rewrite <- !app_assoc. reflexivity.
  - progress_simpl. reflexivity.
Qed.

(** X18.  With the publisher of the repository, an upload that fails
    never fails the job: when the progress reports are accepted and the
    script, media and assembly services return, the job completes, and
    its [uploadUrls] hold at most the two platforms. *)
Theorem handleVideoGeneration_upload_failure_never_fails_job
    (services : Services SD) (data : VideoGenerationJobData) env t :
  publisherService_uploadToSocial services = uploadToSocial ->
  (forall t' n, progress_answer env t' n = inr tt) ->
  (forall t', is_ok (snd (run (scriptService_generateScript services (prompt data)
                                 (jobId data)) env t')) = true) ->
  (forall scriptData t',
     is_ok (snd (run (mediaService_generateMedia services scriptData (jobId data)) env t'))
       = true) ->
  (forall mediaFiles t',
     is_ok (snd (run (editorService_assembleVideo services mediaFiles (jobId data)) env t'))
       = true) ->
  exists tr result,
    run (handleVideoGeneration services data) env t = (tr, inr result) /\
    forall platform, platform <> "youtube" -> platform <> "tiktok" ->
                     uploadUrls result !! platform = None.
Proof.
  intros Hpublisher Hprogress Hscript Hmedia Hassemble.
  unfold handleVideoGeneration. rewrite Hpublisher. job_step. rewrite !Hprogress.
  match goal with |- context [scriptService_generateScript services ?p ?j env ?t'] =>
    specialize (Hscript t'); unfold run in Hscript;
    destruct (scriptService_generateScript services p j env t') as [tr1 [?|script_]];
    [discriminate|] end.
  job_step. rewrite !Hprogress.
  match goal with |- context [mediaService_generateMedia services ?s ?j env ?t'] =>
    specialize (Hmedia s t'); unfold run in Hmedia;
    destruct (mediaService_generateMedia services s j env t') as [tr2 [?|media]];
    [discriminate|] end.
  job_step. rewrite !Hprogress.
  match goal with |- context [editorService_assembleVideo services ?m ?j env ?t'] =>
    specialize (Hassemble m t'); unfold run in Hassemble;
    destruct (editorService_assembleVideo services m j env t') as [tr3 [?|final]];
    [discriminate|] end.
  job_step. rewrite !Hprogress.
  destruct (Js.truthy_obool (uploadToYoutube data) || Js.truthy_obool (uploadToTiktok data));
    job_step.
  - match goal with |- context [uploadToSocial ?v ?ti ?d ?tg ?y ?k env ?t'] =>
      destruct (uploadToSocial_outcome env t' v ti d tg y k)
        as (tr4 & urls & Hrun & _ & _ & Hkeys & _);
      unfold run in Hrun; rewrite Hrun end.
    job_step. rewrite !Hprogress. do 2 eexists. split; [reflexivity|exact Hkeys].
  - rewrite !Hprogress. do 2 eexists. split; [reflexivity|].
    intros platform _ _. apply lookup_empty.
Qed.

End OrchestratorMore.

Lemma handleVideoGeneration_success_witness :
  run (handleVideoGeneration Scenario.mockServicesRealPublisher Scenario.uploadJob)
      Scenario.tiktok_only 0 =
    ([Progress 10; Progress 25; Progress 50; Progress 75; Progress 90; Progress 100],
     inr {| success := true; result_jobId := "test_job_456";
            finalVideoPath := "./temp/output.mp4";
            uploadUrls := {[ "tiktok" := "https://tiktok.com/@user/video/placeholder" ]};
            scriptData := createFallbackScript "Tides" |}) /\
  progress_of [Progress 10; Progress 25; Progress 50; Progress 75; Progress 90; Progress 100]
    = [10; 25; 50; 75; 90; 100].
Proof.
  assert (Hrun :
    run (handleVideoGeneration Scenario.mockServicesRealPublisher Scenario.uploadJob)
        Scenario.tiktok_only 0 =
      ([Progress 10; Progress 25; Progress 50; Progress 75; Progress 90; Progress 100],
       inr {| success := true; result_jobId := "test_job_456";
              finalVideoPath := "./temp/output.mp4";
              uploadUrls := {[ "tiktok" := "https://tiktok.com/@user/video/placeholder" ]};
              scriptData := createFallbackScript "Tides" |})) by reflexivity.
  split; [exact Hrun|].
  exact (proj1 (handleVideoGeneration_success_reports_all_checkpoints _ _ _ _ _ _ Hrun)).
Defined.

Lemma handleVideoGeneration_publishes_witness :
  (Js.truthy_obool (uploadToYoutube Scenario.uploadJob)
   || Js.truthy_obool (uploadToTiktok Scenario.uploadJob) = true /\
   snd (run (handleVideoGeneration Scenario.mockServicesRealPublisher Scenario.uploadJob)
          Scenario.tiktok_only 0) =
     inr {| success := true; result_jobId := "test_job_456";
            finalVideoPath := "./temp/output.mp4";
            uploadUrls := {[ "tiktok" := "https://tiktok.com/@user/video/placeholder" ]};
            scriptData := createFallbackScript "Tides" |}) /\
  exists before t4 tr4,
    run (uploadToSocial "./temp/output.mp4" "AI Generated Video: Tides" "About tides"
           ["sea"; "moon"; "tides"] true true) Scenario.tiktok_only t4 =
      (tr4, inr {[ "tiktok" := "https://tiktok.com/@user/video/placeholder" ]}) /\
    progress_of before = [10; 25; 50].
Proof.
  split; [split; reflexivity|].
  destruct (handleVideoGeneration_publishes_with_defaults
              Scenario.mockServicesRealPublisher Scenario.uploadJob Scenario.tiktok_only 0
              _ _ eq_refl eq_refl) as (before & t4 & tr4 & Hrun & _ & Hbefore).
  exists before, t4, tr4. split; [exact Hrun|exact Hbefore].
Defined.

Lemma handleVideoGeneration_upload_failure_witness :
  (publisherService_uploadToSocial Scenario.mockServicesRealPublisher = uploadToSocial /\
   (forall t' n, progress_answer Scenario.offline t' n = inr tt)) /\
  exists tr result,
    run (handleVideoGeneration Scenario.mockServicesRealPublisher Scenario.uploadJob)
        Scenario.offline 0 = (tr, inr result).
Proof.
  split; [split; reflexivity|].
  destruct (handleVideoGeneration_upload_failure_never_fails_job
              Scenario.mockServicesRealPublisher Scenario.uploadJob Scenario.offline 0
              eq_refl (fun _ _ => eq_refl) (fun _ => eq_refl) (fun _ _ => eq_refl)
              (fun _ _ => eq_refl)) as (tr & result & Hrun & _).
  eauto.
Defined.

(** ** The tags of a request *)

Section Tags.

Lemma list_ascii_trimStart (s : string) :
  list_ascii_of_string (Js.trimStart s) = ltrim (list_ascii_of_string s).
Proof.
  induction s as [|a s IH]; [reflexivity|].
  cbn. destruct (Ascii.is_space a); [exact IH|reflexivity].
Qed.

Lemma list_ascii_reverse (s : string) :
  list_ascii_of_string (Js.reverse_string s) = rev (list_ascii_of_string s).
Proof. unfold Js.reverse_string. apply list_ascii_of_list. Qed.

Lemma list_ascii_trim (s : string) :
  list_ascii_of_string (Js.trim s) = rev (ltrim (rev (ltrim (list_ascii_of_string s)))).
Proof.
  unfold Js.trim.
  now rewrite list_ascii_reverse, list_ascii_trimStart, list_ascii_reverse,
    list_ascii_trimStart.
Qed.

Lemma starts_with_space_list (s : string) :
  starts_with_space s = head_is_space (list_ascii_of_string s).
Proof. destruct s; reflexivity. Qed.

Lemma head_ltrim (l : list ascii) : head_is_space (ltrim l) = false.
Proof.
  induction l as [|a l IH]; [reflexivity|].
  cbn. destruct (Ascii.is_space a) eqn:E; [exact IH|]. cbn. exact E.
Qed.

Lemma ltrim_suffix (l : list ascii) : exists dropped, l = dropped ++ ltrim l.
Proof.
  induction l as [|a l [dropped IH]]; [now exists []|].
  cbn. destruct (Ascii.is_space a).
  - exists (a :: dropped). cbn. now rewrite <- IH.
  - now exists [].
Qed.

Lemma head_rev_ltrim_rev (l : list ascii) :
  head_is_space l = false -> head_is_space (rev (ltrim (rev l))) = false.
Proof.
  intros Hl. destruct (ltrim_suffix (rev l)) as [dropped Hd].
  destruct (ltrim (rev l)) as [|b kept] eqn:Hk; [reflexivity|].
  assert (Hrev : l = rev (b :: kept) ++ rev dropped).
  { rewrite <- rev_app_distr, <- Hd. now rewrite rev_involutive. }
  destruct (rev (b :: kept)) as [|c front] eqn:Hfront.
  - apply (f_equal (@length ascii)) in Hfront. rewrite length_rev in Hfront. discriminate.
  - rewrite Hrev in Hl. exact Hl.
Qed.

Lemma trim_no_space_around (s : string) :
  starts_with_space (Js.trim s) = false /\ ends_with_space (Js.trim s) = false.
Proof.
  unfold ends_with_space.
  rewrite !starts_with_space_list, list_ascii_reverse, list_ascii_trim, rev_involutive.
  split; [apply head_rev_ltrim_rev|]; apply head_ltrim.
Qed.

Lemma occurs_list (c : ascii) (s : string) :
  occurs c s = existsb (Ascii.eqb c) (list_ascii_of_string s).
Proof.
  induction s as [|a s IH]; [reflexivity|].
  cbn. rewrite IH, (Ascii.eqb_sym a c). reflexivity.
Qed.

Lemma existsb_ltrim (f : ascii -> bool) (l : list ascii) :
  existsb f l = false -> existsb f (ltrim l) = false.
Proof.
  induction l as [|a l IH]; [reflexivity|].
  cbn. destruct (Ascii.is_space a); [|auto].
  intros [_ H]%orb_false_iff. auto.
Qed.

Lemma existsb_rev_false (f : ascii -> bool) (l : list ascii) :
  existsb f l = false -> existsb f (rev l) = false.
Proof.
  induction l as [|a l IH]; [reflexivity|].
  cbn. intros [Ha Hl]%orb_false_iff. rewrite existsb_app, (IH Hl). cbn. now rewrite Ha.
Qed.

Lemma trim_keeps_absent (c : ascii) (s : string) :
  occurs c s = false -> occurs c (Js.trim s) = false.
Proof.
  rewrite !occurs_list, list_ascii_trim. intros H.
  now apply existsb_rev_false, existsb_ltrim, existsb_rev_false, existsb_ltrim.
Qed.

Lemma split_length (c : ascii) (s : string) :
  length (Js.split c s) = S (count_char c s).
Proof.
  induction s as [|a s IH]; [reflexivity|].
  cbn [Js.split count_char]. destruct (Ascii.eqb a c).
  - cbn. now rewrite IH.
  - destruct (Js.split c s) as [|h tl]; [discriminate|]. cbn in *. exact IH.
Qed.

Lemma split_no_separator (c : ascii) (s : string) :
  Forall (fun part => occurs c part = false) (Js.split c s).
Proof.
  induction s as [|a s IH]; [repeat constructor|].
  cbn [Js.split]. destruct (Ascii.eqb a c) eqn:Ea.
  - constructor; [reflexivity|exact IH].
  - destruct (Js.split c s) as [|h tl].
    + repeat constructor. cbn. now rewrite Ea.
    + inversion IH as [|? ? Hh Htl]; subst. constructor; [|exact Htl].
      cbn. now rewrite Ea.
Qed.

(** X19.  A non-empty [tags] string gives one tag for each of its
    comma-separated parts, empty parts included: one more tag than it
    has commas; no tag contains a comma, and none starts or ends with
    white space.  Without tags, or with an empty string, the tags are
    AI, Generated, Video. *)
Theorem videoTags_are_trimmed_parts (tags : string) :
  Js.truthy_string tags = true ->
  length (videoTags (Some tags)) = S (count_char "," tags) /\
  Forall clean_tag (videoTags (Some tags)) /\
  videoTags None = ["AI"; "Generated"; "Video"] /\
  videoTags (Some EmptyString) = ["AI"; "Generated"; "Video"].
Proof.
  intros Htags. unfold videoTags. rewrite Htags.
  split; [now rewrite length_map, split_length|].
  split; [|split; reflexivity].
  apply Forall_map. eapply Forall_impl; [apply split_no_separator|].
  intros part Hpart. unfold clean_tag.
  split; [now apply trim_keeps_absent|apply trim_no_space_around].
Qed.

Lemma videoTags_witness :
  Js.truthy_string "sea, moon ,tides" = true /\
  videoTags (Some "sea, moon ,tides") = ["sea"; "moon"; "tides"] /\
  length (videoTags (Some "sea, moon ,tides")) = 3%nat.
Proof.
  split; [reflexivity|]. split; [reflexivity|].
  exact (proj1 (videoTags_are_trimmed_parts "sea, moon ,tides" eq_refl)).
Defined.

End Tags.

(** ** ScriptService: validation and pass-through *)

Section ValidationMore.

Lemma set_put (v : jsval) (k : string) (x : jsval) :
  Json.is_object v = true -> Json.set v k x = inr (put v k x).
Proof. destruct v; try discriminate; reflexivity. Qed.

Lemma is_object_put (v : jsval) (k : string) (x : jsval) :
  Json.is_object (put v k x) = Json.is_object v.
Proof. destruct v; reflexivity. Qed.

Lemma prop_put_eq (v : jsval) (k : string) (x : jsval) :
  Json.is_object v = true -> Json.prop (put v k x) k = Some x.
Proof. destruct v; try discriminate; intros _; cbn; apply lookup_insert_eq. Qed.

Lemma prop_put_ne (v : jsval) (k k' : string) (x : jsval) :
  k <> k' -> Json.prop (put v k x) k' = Json.prop v k'.
Proof. intros Hk. destruct v; try reflexivity; cbn; now apply lookup_insert_ne. Qed.

(** [validateScriptData] on an object, step by step. *)
Lemma validateScriptData_object (data : jsval) :
  Json.is_object data = true ->
  let d1 := if Json.truthy (Json.prop data "script") then data
            else put data "script" (JStr "Generated video content.") in
  let d2 := if Json.is_nonempty_array (Json.prop d1 "visual_prompts") then d1
            else put d1 "visual_prompts" defaultVisualPrompts in
  validateScriptData data =
    if Json.is_nonempty_array (Json.prop d2 "timestamps") then inr d2
    else match Json.substring0 100 (Json.prop d2 "script") with
         | inl err => inl err
         | inr text => inr (put d2 "timestamps" (defaultTimestamps text))
         end.
Proof.
  intros Hobj d1 d2. unfold validateScriptData.
  rewrite (get_object data "script" Hobj). cbn [mbind sum_Error_bind]; cbv beta.
  assert (H1 : (if negb (Json.truthy (Json.prop data "script"))
                then Json.set data "script" (JStr "Generated video content.")
                else mret data) = inr d1 /\ Json.is_object d1 = true).
  { subst d1. destruct (Json.truthy (Json.prop data "script")); cbn [negb].
    - split; [reflexivity|exact Hobj].
    - rewrite (set_put _ _ _ Hobj), is_object_put. auto. }
  destruct H1 as [-> Hobj1]. cbn [mbind sum_Error_bind]; cbv beta.
  rewrite (get_object d1 "visual_prompts" Hobj1). cbn [mbind sum_Error_bind]; cbv beta.
  rewrite <- (negb_involutive (negb _ || _)), <- nonempty_array_iff.
  assert (H2 : (if negb (Json.is_nonempty_array (Json.prop d1 "visual_prompts"))
                then Json.set d1 "visual_prompts" defaultVisualPrompts
                else mret d1) = inr d2 /\ Json.is_object d2 = true).
  { subst d2. destruct (Json.is_nonempty_array (Json.prop d1 "visual_prompts")); cbn [negb].
    - split; [reflexivity|exact Hobj1].
    - rewrite (set_put _ _ _ Hobj1), is_object_put. auto. }
  destruct H2 as [H2 Hobj2]. unfold defaultVisualPrompts in H2. rewrite H2.
  cbn [mbind sum_Error_bind]; cbv beta.
  rewrite (get_object d2 "timestamps" Hobj2). cbn [mbind sum_Error_bind]; cbv beta.
  rewrite <- (negb_involutive (negb _ || _)), <- nonempty_array_iff.
  destruct (Json.is_nonempty_array (Json.prop d2 "timestamps")); cbn [negb];
    cbn [mbind sum_Error_bind]; cbv beta; [reflexivity|].
  rewrite (get_object d2 "script" Hobj2). cbn [mbind sum_Error_bind]; cbv beta.
  destruct (Json.substring0 100 (Json.prop d2 "script")) as [err|text];
    cbn [mbind sum_Error_bind]; cbv beta; [reflexivity|].
  rewrite (set_put _ _ _ Hobj2). reflexivity.
Qed.

Lemma validateScriptData_well_formed (data : jsval) :
  well_formed_script data -> validateScriptData data = inr data.
Proof.
  intros (Hobj & Hs & Hv & Ht).
  rewrite (validateScriptData_object data Hobj). cbv zeta.
  rewrite Hs, Hv, Ht. reflexivity.
Qed.

(** X20.  Validation is idempotent: what it returns is well-formed and
    passes validation again unchanged. *)
Theorem validateScriptData_idempotent (data data' : jsval) :
  validateScriptData data = inr data' ->
  well_formed_script data' /\ validateScriptData data' = inr data'.
Proof.
  intros Hval.
  pose proof (validateScriptData_returns_objects _ _ Hval) as Hobj.
  destruct (validateScriptData_repairs data Hobj) as [Hret _].
  assert (Hwf : well_formed_script data') by exact (Hret data' Hval).
  split; [exact Hwf|now apply validateScriptData_well_formed].
Qed.

Lemma validateScriptData_idempotent_witness :
  validateScriptData (JObject ∅) =
    inr (put (put (put (JObject ∅) "script" (JStr "Generated video content."))
                "visual_prompts" defaultVisualPrompts)
           "timestamps" (defaultTimestamps "Generated video content.")) /\
  validateScriptData
    (put (put (put (JObject ∅) "script" (JStr "Generated video content."))
            "visual_prompts" defaultVisualPrompts)
       "timestamps" (defaultTimestamps "Generated video content.")) =
    inr (put (put (put (JObject ∅) "script" (JStr "Generated video content."))
                "visual_prompts" defaultVisualPrompts)
           "timestamps" (defaultTimestamps "Generated video content.")).
Proof.
  assert (H : validateScriptData (JObject ∅) =
    inr (put (put (put (JObject ∅) "script" (JStr "Generated video content."))
                "visual_prompts" defaultVisualPrompts)
           "timestamps" (defaultTimestamps "Generated video content."))) by reflexivity.
  split; [exact H|]. exact (proj2 (validateScriptData_idempotent _ _ H)).
Defined.

(** X21.  Validation repairs and never rewrites: of an object it
    changes no property besides [script], [visual_prompts] and
    [timestamps], and it keeps each of these three when it is valid.
    A falsy script becomes the default sentence, invalid visual prompts
    become the single default cue, and invalid timestamps become one cue
    over 0 to 10 seconds whose text is the first 100 characters of the
    script of the result. *)
Theorem validateScriptData_keeps_what_is_valid (data data' : jsval) :
  Json.is_object data = true ->
  validateScriptData data = inr data' ->
  (forall k, k <> "script" -> k <> "visual_prompts" -> k <> "timestamps" ->
             Json.prop data' k = Json.prop data k) /\
  (if Json.truthy (Json.prop data "script")
   then Json.prop data' "script" = Json.prop data "script"
   else Json.prop data' "script" = Some (JStr "Generated video content.")) /\
  (if Json.is_nonempty_array (Json.prop data "visual_prompts")
   then Json.prop data' "visual_prompts" = Json.prop data "visual_prompts"
   else Json.prop data' "visual_prompts" = Some defaultVisualPrompts) /\
  (if Json.is_nonempty_array (Json.prop data "timestamps")
   then Json.prop data' "timestamps" = Json.prop data "timestamps"
   else exists s, Json.prop data' "script" = Some (JStr s) /\
                  Json.prop data' "timestamps" =
                    Some (defaultTimestamps (Js.substring0 100 s))).
Proof.
  intros Hobj. rewrite (validateScriptData_object data Hobj). cbv zeta.
  set (d1 := if Json.truthy (Json.prop data "script") then data
             else put data "script" (JStr "Generated video content.")).
  assert (Hobj1 : Json.is_object d1 = true).
  { subst d1. destruct (Json.truthy _); [exact Hobj|now rewrite is_object_put]. }
  assert (H1 : forall k, k <> "script" -> Json.prop d1 k = Json.prop data k).
  { intros k Hk. subst d1. destruct (Json.truthy _); [reflexivity|].
    apply prop_put_ne. congruence. }
  assert (H1s : if Json.truthy (Json.prop data "script")
                then Json.prop d1 "script" = Json.prop data "script"
                else Json.prop d1 "script" = Some (JStr "Generated video content.")).
  { subst d1. destruct (Json.truthy _); [reflexivity|now apply prop_put_eq]. }
  clearbody d1.
  rewrite (H1 "visual_prompts") by discriminate.
  set (d2 := if Json.is_nonempty_array (Json.prop data "visual_prompts") then d1
             else put d1 "visual_prompts" defaultVisualPrompts).
  assert (Hobj2 : Json.is_object d2 = true).
  { subst d2. destruct (Json.is_nonempty_array _); [exact Hobj1|now rewrite is_object_put]. }
  assert (H2 : forall k, k <> "visual_prompts" -> Json.prop d2 k = Json.prop d1 k).
  { intros k Hk. subst d2. destruct (Json.is_nonempty_array _); [reflexivity|].
    apply prop_put_ne. congruence. }
  assert (H2v : if Json.is_nonempty_array (Json.prop data "visual_prompts")
                then Json.prop d2 "visual_prompts" = Json.prop data "visual_prompts"
                else Json.prop d2 "visual_prompts" = Some defaultVisualPrompts).
  { subst d2. destruct (Json.is_nonempty_array _);
      [apply H1; discriminate|now apply prop_put_eq]. }
  clearbody d2.
  rewrite (H2 "timestamps"), (H1 "timestamps") by discriminate.
  rewrite (H2 "script") by discriminate.
  destruct (Json.is_nonempty_array (Json.prop data "timestamps")) eqn:Ht.
  - intros [= <-]. split; [|split; [|split]].
    + intros k Hs Hv _. rewrite (H2 k Hv). now apply H1.
    + rewrite (H2 "script") by discriminate. exact H1s.
    + exact H2v.
    + rewrite (H2 "timestamps"), (H1 "timestamps") by discriminate. reflexivity.
  - destruct (Json.prop d1 "script") as [[| | |s| |]|] eqn:Hscript;
      cbn [Json.substring0]; try discriminate.
    intros [= <-]. split; [|split; [|split]].
    + intros k Hs Hv Hts. rewrite prop_put_ne by congruence. rewrite (H2 k Hv).
      now apply H1.
    + rewrite prop_put_ne, (H2 "script"), Hscript by discriminate. exact H1s.
    + rewrite prop_put_ne by discriminate. exact H2v.
    + exists s. rewrite prop_put_ne, (H2 "script") by discriminate.
      split; [exact Hscript|]. now apply prop_put_eq.
Qed.

Lemma validateScriptData_keeps_witness :
  (Json.is_object (JObject {[ "title" := JStr "Tides" ]}) = true /\
   validateScriptData (JObject {[ "title" := JStr "Tides" ]}) =
     inr (put (put (put (JObject {[ "title" := JStr "Tides" ]}) "script"
                      (JStr "Generated video content."))
                 "visual_prompts" defaultVisualPrompts)
            "timestamps" (defaultTimestamps "Generated video content."))) /\
  Json.prop
    (put (put (put (JObject {[ "title" := JStr "Tides" ]}) "script"
                 (JStr "Generated video content."))
            "visual_prompts" defaultVisualPrompts)
       "timestamps" (defaultTimestamps "Generated video content.")) "title" =
    Some (JStr "Tides").
Proof.
  assert (H : validateScriptData (JObject {[ "title" := JStr "Tides" ]}) =
     inr (put (put (put (JObject {[ "title" := JStr "Tides" ]}) "script"
                      (JStr "Generated video content."))
                 "visual_prompts" defaultVisualPrompts)
            "timestamps" (defaultTimestamps "Generated video content."))) by reflexivity.
  split; [split; [reflexivity|exact H]|].
  destruct (validateScriptData_keeps_what_is_valid
              (JObject {[ "title" := JStr "Tides" ]}) _ eq_refl H) as (Hother & _).
  rewrite (Hother "title") by discriminate. reflexivity.
Defined.

End ValidationMore.

Section ScriptPassThrough.

Lemma run_generateScript_validated env t prompt jobId text data :
  genAI env = true ->
  answer env t (GenerateContent prompt) = inr text ->
  validateScriptData (parsed_or_fallback env prompt text) = inr data ->
  run (generateScript prompt jobId) env t =
    ([GenerateContent prompt; SaveToDebug (jobId +:+ "_script.json")],
     match answer env (S t) (SaveToDebug (jobId +:+ "_script.json")) with
     | inl _ => inr (ScriptData_to_js (createFallbackScript prompt))
     | inr _ => inr data
     end).
Proof.
  intros Hkey Htext Hval. run_unfold generateScript. rewrite Hkey. cbn [negb]. cbv iota.
  rewrite Htext. run_simpl. fold (parsed_or_fallback env prompt text). rewrite Hval.
  run_simpl. destruct_answer; reflexivity.
Qed.

(** X22.  A reply of the script service that parses to a well-formed
    script is handed on exactly as it was parsed, after one call to the
    service and one debug copy. *)
Theorem generateScript_passes_well_formed_reply env t prompt jobId text data ok :
  genAI env = true ->
  answer env t (GenerateContent prompt) = inr text ->
  JSON_parse env (cleanJsonText text) = Some data ->
  well_formed_script data ->
  answer env (1 + t)%nat (SaveToDebug (jobId +:+ "_script.json")) = inr ok ->
  run (generateScript prompt jobId) env t =
    ([GenerateContent prompt; SaveToDebug (jobId +:+ "_script.json")], inr data).
Proof.
  intros Hkey Htext Hparse Hwf Hsave. cbn [Nat.add] in Hsave.
  rewrite (run_generateScript_validated env t prompt jobId text data Hkey Htext).
  - rewrite Hsave. reflexivity.
  - unfold parsed_or_fallback. rewrite Hparse. now apply validateScriptData_well_formed.
Qed.

Lemma generateScript_passes_witness :
  (genAI good_reply = true /\
   answer good_reply 0 (GenerateContent "tides") = inr "not json" /\
   answer good_reply 1 (SaveToDebug "job_script.json") = inr tt) /\
  run (generateScript "tides" "job") good_reply 0 =
    ([GenerateContent "tides"; SaveToDebug "job_script.json"],
     inr (ScriptData_to_js
            {| script := "Tides follow the moon.";
               visual_prompts := [Scenario.sunrise];
               timestamps := Scenario.two_cues |})).
Proof.
  split; [repeat split|].
  apply (generateScript_passes_well_formed_reply good_reply 0 "tides" "job" "not json" _ tt);
    try reflexivity.
  repeat split.
Defined.

(** X23.  The debug copy is made inside the try block: when it cannot
    be written, a validated script is dropped and the template script is
    returned in its place, without an error. *)
Theorem generateScript_debug_failure_discards_script env t prompt jobId text data err :
  genAI env = true ->
  answer env t (GenerateContent prompt) = inr text ->
  validateScriptData (parsed_or_fallback env prompt text) = inr data ->
  answer env (1 + t)%nat (SaveToDebug (jobId +:+ "_script.json")) = inl err ->
  run (generateScript prompt jobId) env t =
    ([GenerateContent prompt; SaveToDebug (jobId +:+ "_script.json")],
     inr (ScriptData_to_js (createFallbackScript prompt))).
Proof.
  intros Hkey Htext Hval Hsave. cbn [Nat.add] in Hsave.
  rewrite (run_generateScript_validated env t prompt jobId text data Hkey Htext Hval).
  rewrite Hsave. reflexivity.
Qed.

Lemma generateScript_debug_failure_witness :
  (genAI good_reply_no_debug = true /\
   answer good_reply_no_debug 0 (GenerateContent "tides") = inr "not json" /\
   answer good_reply_no_debug 1 (SaveToDebug "job_script.json") =
     inl "EACCES: permission denied") /\
  run (generateScript "tides" "job") good_reply_no_debug 0 =
    ([GenerateContent "tides"; SaveToDebug "job_script.json"],
     inr (ScriptData_to_js (createFallbackScript "tides"))).
Proof.
  split; [repeat split|].
  apply (generateScript_debug_failure_discards_script good_reply_no_debug 0 "tides" "job"
           "not json"
           (ScriptData_to_js
              {| script := "Tides follow the moon.";
                 visual_prompts := [Scenario.sunrise];
                 timestamps := Scenario.two_cues |})
           "EACCES: permission denied"); reflexivity.
Defined.

End ScriptPassThrough.

(** ** The subtitle path, again *)

Section SafePaths.

Lemma length_escapePathChar (a : ascii) :
  String.length (escapePathChar a) = (1 + if Ascii.eqb a ":" then 1 else 0)%nat.
Proof.
  unfold escapePathChar. destruct (Ascii.eqb a Js.backslash) eqn:Eb.
  - apply Ascii.eqb_eq in Eb. subst a. reflexivity.
  - destruct (Ascii.eqb a ":"); reflexivity.
Qed.

(** X24.  A path without colon and backslash, such as a relative Unix
    path, is put into the filter argument unchanged; in general the
    escaped path is longer than the path by the number of its colons. *)
Theorem escapeSubtitlePath_leaves_plain_paths (subtitlePath : string) :
  (occurs ":" subtitlePath = false -> occurs Js.backslash subtitlePath = false ->
   escapeSubtitlePath subtitlePath = subtitlePath) /\
  String.length (escapeSubtitlePath subtitlePath) =
    (String.length subtitlePath + count_char ":" subtitlePath)%nat.
Proof.
  split.
  - induction subtitlePath as [|a rest IH]; [reflexivity|].
    cbn [occurs]. intros [Hc Hrest]%orb_false_iff [Hb Hrest']%orb_false_iff.
    rewrite escapeSubtitlePath_cons, (IH Hrest Hrest').
    unfold escapePathChar. rewrite Hb, Hc. reflexivity.
  - induction subtitlePath as [|a rest IH]; [reflexivity|].
    rewrite escapeSubtitlePath_cons, length_append, length_escapePathChar, IH.
    cbn [String.length count_char]. destruct (Ascii.eqb a ":"); lia.
Qed.

Lemma escapeSubtitlePath_plain_witness :
  (occurs ":" "./temp/job_subtitles.srt" = false /\
   occurs Js.backslash "./temp/job_subtitles.srt" = false) /\
  escapeSubtitlePath "./temp/job_subtitles.srt" = "./temp/job_subtitles.srt".
Proof.
  split; [split; reflexivity|].
  apply (proj1 (escapeSubtitlePath_leaves_plain_paths "./temp/job_subtitles.srt"));
    reflexivity.
Defined.

End SafePaths.

(** ** The timestamp as a number of milliseconds *)

Section Milliseconds.

Local Open Scope Q_scope.






End Milliseconds.

(** ** Removing the code fences of a reply *)

Section Fences.

Lemma append_empty_r (s : string) : s +:+ EmptyString = s.
Proof. induction s as [|a s IH]; [reflexivity|]. now rewrite append_cons, IH. Qed.

Lemma replace_from_no_backtick (pat by_ body rest : string) :
  occurs backtick body = false ->
  Js.replace_from (String backtick pat) by_ 0 (body +:+ rest) =
    body +:+ Js.replace_from (String backtick pat) by_ 0 rest.
Proof.
  induction body as [|a body IH]; intros H; [reflexivity|].
  cbn in H. apply orb_false_elim in H as [Ha Hb].
  rewrite append_cons. cbn [Js.replace_from String.prefix].
  destruct (ascii_dec backtick a) as [E|_].
  { now rewrite <- E, Ascii.eqb_refl in Ha. }
  rewrite (IH Hb). now rewrite append_cons.
Qed.

Lemma prefix_append (p rest : string) : String.prefix p (p +:+ rest) = true.
Proof.
  induction p as [|a p IH]; [now destruct rest|].
  rewrite append_cons. cbn [String.prefix].
  destruct (ascii_dec a a) as [_|N]; [exact IH|now destruct N].
Qed.

Lemma replace_from_skip (pat by_ p rest : string) :
  Js.replace_from pat by_ (String.length p) (p +:+ rest) =
    Js.replace_from pat by_ 0 rest.
Proof.
  induction p as [|a p IH]; [reflexivity|].
  rewrite append_cons. exact IH.
Qed.

Lemma replace_from_match (a : ascii) (p by_ rest : string) :
  Js.replace_from (String a p) by_ 0 (String a p +:+ rest) =
    by_ +:+ Js.replace_from (String a p) by_ 0 rest.
Proof.
  rewrite append_cons.
  change (Js.replace_from (String a p) by_ 0 (String a (p +:+ rest)))
    with (if String.prefix (String a p) (String a (p +:+ rest))
          then by_ +:+ Js.replace_from (String a p) by_
                         (String.length (String a p) - 1) (p +:+ rest)
          else String a (Js.replace_from (String a p) by_ 0 (p +:+ rest))).
  rewrite <- append_cons, prefix_append.
  cbn [String.length Nat.sub]. rewrite Nat.sub_0_r.
  now rewrite replace_from_skip.
Qed.

Lemma replace_all_no_backtick (pat by_ body : string) :
  occurs backtick body = false ->
  Js.replace_all (String backtick pat) by_ body = body.
Proof.
  intros H. unfold Js.replace_all.
  rewrite <- (append_empty_r body) at 1.
  rewrite (replace_from_no_backtick _ _ _ _ H). cbn. apply append_empty_r.
Qed.

Lemma ltrim_app_space (l : list ascii) (c : ascii) :
  Ascii.is_space c = true ->
  ltrim (l ++ [c]) = match ltrim l with [] => [] | _ => ltrim l ++ [c] end.
Proof.
  intros Hc. induction l as [|a l IH]; cbn.
  - now rewrite Hc.
  - destruct (Ascii.is_space a); [exact IH|reflexivity].
Qed.

Lemma trim_app_space (s : string) (c : ascii) :
  Ascii.is_space c = true ->
  Js.trim (s +:+ String c EmptyString) = Js.trim s.
Proof.
  intros Hc.
  rewrite <- (string_of_list_ascii_of_string (Js.trim s)).
  rewrite <- (string_of_list_ascii_of_string (Js.trim (s +:+ String c EmptyString))).
  f_equal. rewrite !list_ascii_trim, list_ascii_append. cbn [list_ascii_of_string].
  rewrite (ltrim_app_space _ _ Hc).
  destruct (ltrim (list_ascii_of_string s)) as [|a l] eqn:E; [reflexivity|].
  rewrite rev_app_distr. cbn [rev app ltrim]. now rewrite Hc.
Qed.

(** X26.  A reply that holds no backtick loses only the white space
    around it: none of the three fence patterns matches anywhere, so the
    text handed to the JSON parser is [text.trim()]. *)
Theorem cleanJsonText_without_fences (text : string) :
  occurs backtick text = false ->
  cleanJsonText text = Js.trim text.
Proof.
  intros H. unfold cleanJsonText, fence.
  cbv [String.append]. fold backtick.
  now rewrite !(replace_all_no_backtick _ _ _ H).
Qed.

Lemma cleanJsonText_without_fences_witness :
  occurs backtick "  {}  " = false /\ cleanJsonText "  {}  " = "{}".
Proof.
  split; [reflexivity|].
  now rewrite (cleanJsonText_without_fences "  {}  " eq_refl).
Defined.

(** X27.  A reply wrapped in a Markdown block, an opening fence tagged
    json on a line of its own, the body and a closing fence on its own
    line, is reduced to the trimmed body, provided the body holds no
    backtick. *)
Theorem cleanJsonText_unwraps_json_block (body : string) :
  occurs backtick body = false ->
  cleanJsonText (fence +:+ "json" +:+ Js.newline +:+ body +:+ Js.newline +:+ fence) =
    Js.trim body.
Proof.
  intros H. unfold cleanJsonText.
  set (closing := Js.newline +:+ fence).
  assert (E1 : Js.replace_all (fence +:+ "json" +:+ Js.newline) EmptyString
                 (fence +:+ "json" +:+ Js.newline +:+ body +:+ closing) =
               body +:+ closing).
  { unfold Js.replace_all.
    change (fence +:+ "json" +:+ Js.newline +:+ body +:+ closing)
      with ((fence +:+ "json" +:+ Js.newline) +:+ body +:+ closing).
    change (fence +:+ "json" +:+ Js.newline)
      with (String backtick ("``json" +:+ Js.newline)).
    rewrite replace_from_match, (replace_from_no_backtick _ _ _ _ H).
    reflexivity. }
  rewrite E1.
  assert (E2 : Js.replace_all (fence +:+ Js.newline) EmptyString (body +:+ closing) =
               body +:+ closing).
  { unfold Js.replace_all.
    change (fence +:+ Js.newline) with (String backtick ("``" +:+ Js.newline)).
    rewrite (replace_from_no_backtick _ _ _ _ H). reflexivity. }
  rewrite E2.
  assert (E3 : Js.replace_all fence EmptyString (body +:+ closing) =
               body +:+ Js.newline).
  { unfold Js.replace_all. change fence with (String backtick "``").
    rewrite (replace_from_no_backtick _ _ _ _ H). reflexivity. }
  rewrite E3. apply trim_app_space. reflexivity.
Qed.

Lemma cleanJsonText_unwraps_json_block_witness :
  occurs backtick "{}" = false /\
  cleanJsonText (fence +:+ "json" +:+ Js.newline +:+ "{}" +:+ Js.newline +:+ fence) = "{}".
Proof.
  split; [reflexivity|].
  now rewrite (cleanJsonText_unwraps_json_block "{}" eq_refl).
Defined.

End Fences.
